(** * Konvoy/Kuma control plane: the resource web service and the network
    RBAC listener configurer

    A shallow embedding of

    - [pkg/api-server/resource_ws.go]: the HTTP handlers that expose the
      Resource Store ([findResource], [listResources],
      [createOrUpdateResource], [deleteResource]) and the JSON envelope
      [ResourceReqResp];
    - package [listeners]: [NetworkRBACConfigurer] and the functions that
      turn traffic permissions into an Envoy network RBAC filter.

    Go values are modelled as follows.  An [error] is the message that its
    [Error()] method returns, which is all the handlers look at.  A function
    returning [(T, error)] returns [error + T]; one returning only [error]
    returns [option error].  Go maps are [gmap]s, and indexing a map at a
    missing key gives the zero value.  Pointers to freshly built structs are
    the structs themselves; [nil] receivers and [nil] list elements, on which
    the code panics, are outside the model.  The [context.Context] argument
    of the store operations and the calls to the process log carry no data
    that reaches the store or the HTTP response, and are left out. *)

From Stdlib Require Import ZArith Ascii String.
From stdpp Require Import base option list strings gmap.

Local Set Warnings "-register-all".
Local Open Scope string_scope.
Local Open Scope list_scope.
Local Open Scope Z_scope.

(** A Go [error], observed through [Error()]. *)
Definition error : Type := string.

(** [m[k]] on a Go [map[string]string]: the zero value when [k] is absent. *)
Definition map_index (m : gmap string string) (k : string) : string :=
  default "" (m !! k).

(** ** Package [v1alpha1]: the traffic permission API *)
Module v1alpha1.

(** Modelled from the spec: the constant [MatchAllTag] is declared outside
    the sources; the spec gives the wildcard as [*]. *)
Definition MatchAllTag : string := "*".

Record Selector := { Match : gmap string string }.

Record TrafficPermission := {
  Sources : list Selector;
  Destinations : list Selector
}.

End v1alpha1.

(** ** Package [mesh_core]: traffic permission resources *)
Module mesh_core.

Record ResourceMeta := {
  GetName : string;
  GetMesh : string;
  GetVersion : string
}.

Record TrafficPermissionResource := {
  Meta : ResourceMeta;
  Spec : v1alpha1.TrafficPermission
}.

Record TrafficPermissionResourceList := {
  Items : list TrafficPermissionResource
}.

End mesh_core.

(** ** Envoy API types used by the configurer *)
Module envoy_matcher.

Inductive StringMatcher_MatchPattern :=
| StringMatcher_Exact (Exact : string)
| StringMatcher_Prefix (Prefix : string)
| StringMatcher_Suffix (Suffix : string)
| StringMatcher_Regex (Regex : string).

Record StringMatcher := { MatchPattern : option StringMatcher_MatchPattern }.

End envoy_matcher.

Module rbac_config.

Record Principal_Authenticated := {
  PrincipalName : option envoy_matcher.StringMatcher
}.

(** The [oneof] of a principal; only the two alternatives that the
    configurer builds are listed. *)
Inductive Principal_Identifier :=
| Principal_Any (Any : bool)
| Principal_Authenticated_ (Authenticated : Principal_Authenticated).

Record Principal := { Identifier : option Principal_Identifier }.

Inductive Permission_Rule :=
| Permission_Any (Any : bool)
| Permission_DestinationPort (port : Z).

Record Permission := { Rule : option Permission_Rule }.

Record Policy := {
  Permissions : list Permission;
  Principals : list Principal
}.

Inductive RBAC_Action := RBAC_ALLOW | RBAC_DENY.

Record RBAC := {
  Action : RBAC_Action;
  Policies : gmap string Policy
}.

End rbac_config.

Module rbac.

Record RBAC := {
  Rules : option rbac_config.RBAC;
  StatPrefix : string
}.

End rbac.

Module ptypes.

(** [any.Any]: a type URL and the serialized message. *)
Record Any := {
  TypeUrl : string;
  Value : list Byte.byte
}.

End ptypes.

Module envoy_wellknown.

(** The name under which Envoy knows the network RBAC filter, a constant of
    the go-control-plane library. *)
Definition RoleBasedAccessControl : string := "envoy.filters.network.rbac".

End envoy_wellknown.

(** Of the listener, its filter chains and their filters, the fields that
    the configurer reads or writes are kept, and a name or address that it
    leaves alone. *)
Module envoy_listener.

Inductive Filter_ConfigType :=
| Filter_Config (Config : string)
| Filter_TypedConfig (TypedConfig : ptypes.Any).

Record Filter := {
  Name : string;
  ConfigType : option Filter_ConfigType
}.

Record FilterChain := {
  ChainName : string;
  Filters : list Filter
}.

End envoy_listener.

Module v2.

Record Listener := {
  Name : string;
  Address : string;
  FilterChains : list envoy_listener.FilterChain
}.

End v2.

(** ** Package [util_xds] *)
Module util_xds.

(** Modelled from the spec: [SanitizeMetric] is defined outside the
    sources.  The spec says that it replaces the protocol-unsafe characters
    of a listener name, naming the colon and the dot, and its scenario shows
    the replacement character [_]. *)
Definition sanitizeChar (c : ascii) : ascii :=
  if (Ascii.eqb c ":" || Ascii.eqb c ".")%bool then "_"%char else c.

Fixpoint SanitizeMetric (metric : string) : string :=
  match metric with
  | EmptyString => EmptyString
  | String c rest => String (sanitizeChar c) (SanitizeMetric rest)
  end.

End util_xds.

(** ** Package [listeners] *)
Module listeners.

Import v1alpha1 mesh_core.

Section Configurer.

(** The two library functions that the configurer calls and that live
    outside the sources: the metric sanitizer and protobuf's [MarshalAny]. *)
Variable SanitizeMetric : string → string.
Variable MarshalAny : rbac.RBAC → error + ptypes.Any.

(** The principal built by one iteration of the loop of [createPolicy]. *)
Definition createPrincipal (permission : TrafficPermissionResource)
    (source : Selector) : rbac_config.Principal :=
  let service := map_index (Match source) "service" in
  if String.eqb service MatchAllTag then
    {| rbac_config.Identifier := Some (rbac_config.Principal_Any true) |}
  else
    {| rbac_config.Identifier :=
         Some (rbac_config.Principal_Authenticated_
           {| rbac_config.PrincipalName :=
                Some {| envoy_matcher.MatchPattern :=
                  Some (envoy_matcher.StringMatcher_Exact
                    ("spiffe://" +:+ GetMesh (Meta permission) +:+ "/" +:+ service)) |} |}) |}.

(** [createPolicy]: the loop appends one principal per source to the
    slice [principals], which starts empty. *)
Definition createPolicy (permission : TrafficPermissionResource)
    : rbac_config.Policy :=
  let principals :=
    fold_left
      (λ principals source, principals ++ [createPrincipal permission source])
      (Sources (Spec permission)) [] in
  {| rbac_config.Permissions :=
       [ {| rbac_config.Rule := Some (rbac_config.Permission_Any true) |} ];
     rbac_config.Principals := principals |}.

(** [createRbacRule]: the loop stores [createPolicy permission] in the map
    [policies] under the permission's name, in the order of [Items]. *)
Definition createRbacRule (listenerName : string)
    (permissions : TrafficPermissionResourceList) : rbac.RBAC :=
  let policies :=
    fold_left
      (λ (policies : gmap string rbac_config.Policy) permission,
         <[ GetName (Meta permission) := createPolicy permission ]> policies)
      (Items permissions) ∅ in
  {| rbac.Rules := Some {| rbac_config.Action := rbac_config.RBAC_ALLOW;
                           rbac_config.Policies := policies |};
     rbac.StatPrefix := SanitizeMetric listenerName +:+ "." |}.

Definition createRbacFilter (listenerName : string)
    (permissions : TrafficPermissionResourceList)
    : error + envoy_listener.Filter :=
  let rbacRule := createRbacRule listenerName permissions in
  match MarshalAny rbacRule with
  | inl err => inl err
  | inr rbacMarshalled =>
      inr {| envoy_listener.Name := envoy_wellknown.RoleBasedAccessControl;
             envoy_listener.ConfigType :=
               Some (envoy_listener.Filter_TypedConfig rbacMarshalled) |}
  end.

(** The configurers that can be registered on a listener builder. *)
Inductive ListenerConfigurer :=
| NetworkRBACConfigurer (permissions : TrafficPermissionResourceList).

Definition prependFilter (filter : envoy_listener.Filter)
    (chain : envoy_listener.FilterChain) : envoy_listener.FilterChain :=
  {| envoy_listener.ChainName := envoy_listener.ChainName chain;
     envoy_listener.Filters := [filter] ++ envoy_listener.Filters chain |}.

(** The loop of [Configure] over [l.FilterChains], from the chain at hand
    onwards.  The chains are updated in place: when [createRbacFilter] fails
    the function returns at once, the chains already visited keep their new
    filter and the others are left as they were. *)
Fixpoint configureChains (listenerName : string)
    (permissions : TrafficPermissionResourceList)
    (chains : list envoy_listener.FilterChain)
    : option error * list envoy_listener.FilterChain :=
  match chains with
  | [] => (None, [])
  | chain :: rest =>
      match createRbacFilter listenerName permissions with
      | inl err => (Some err, chain :: rest)
      | inr filter =>
          let '(err, rest') := configureChains listenerName permissions rest in
          (err, prependFilter filter chain :: rest')
      end
  end.

(** [(c *NetworkRBACConfigurer) Configure]: the returned listener is [l]
    after the in-place updates, also when an error is returned. *)
Definition Configure (c : ListenerConfigurer) (l : v2.Listener)
    : option error * v2.Listener :=
  match c with
  | NetworkRBACConfigurer permissions =>
      let '(err, chains) :=
        configureChains (v2.Name l) permissions (v2.FilterChains l) in
      (err, {| v2.Name := v2.Name l;
               v2.Address := v2.Address l;
               v2.FilterChains := chains |})
  end.

(** Modelled from the spec: [ListenerBuilderConfig] and its [Add] are
    declared outside the sources; the spec describes the pipeline as an
    ordered sequence of configurers, kept in registration order. *)
Record ListenerBuilderConfig := {
  Configurers : list ListenerConfigurer
}.

Definition Add (config : ListenerBuilderConfig) (c : ListenerConfigurer)
    : ListenerBuilderConfig :=
  {| Configurers := Configurers config ++ [c] |}.

(** [NetworkRBAC]: a builder option, a function on the builder
    configuration. *)
Definition NetworkRBAC (rbacEnabled : bool)
    (permissions : TrafficPermissionResourceList)
    (config : ListenerBuilderConfig) : ListenerBuilderConfig :=
  if rbacEnabled then Add config (NetworkRBACConfigurer permissions)
  else config.

End Configurer.

End listeners.

(** ** JSON documents and [encoding/json] *)
Module json.

(** A syntactically valid JSON document.  The fields of an object are kept
    in the order of the text, repeated keys included. *)
Inductive value :=
| JNull
| JBool (b : bool)
| JNumber (digits : string)
| JString (s : string)
| JArray (items : list value)
| JObject (fields : list (string * value)).

(** The name by which [UnmarshalTypeError] calls a JSON value. *)
Definition kind (v : value) : string :=
  match v with
  | JNull => "null"
  | JBool _ => "bool"
  | JNumber _ => "number"
  | JString _ => "string"
  | JArray _ => "array"
  | JObject _ => "object"
  end.

Definition UnmarshalTypeError (jsonKind goType : string) : error :=
  "json: cannot unmarshal " +:+ jsonKind +:+ " into Go value of type " +:+ goType.

(** The values that decode into a Go [string] without an error. *)
Definition isStringOrNull (v : value) : bool :=
  match v with
  | JString _ | JNull => true
  | _ => false
  end.

(** The decoder keeps the first type error and goes on decoding. *)
Definition saveError (saved : option error) (err : error) : option error :=
  match saved with
  | Some _ => saved
  | None => Some err
  end.

(** Decoding the fields of an object into a [map[string]string].  Each key
    is stored with a fresh element: a JSON string sets it, [null] leaves the
    zero value without an error, any other value leaves the zero value and
    is a type error. *)
Fixpoint decodeFields (fields : list (string * value))
    (values : gmap string string) (saved : option error)
    : option error * gmap string string :=
  match fields with
  | [] => (saved, values)
  | (key, v) :: rest =>
      match v with
      | JString s => decodeFields rest (<[ key := s ]> values) saved
      | JNull => decodeFields rest (<[ key := "" ]> values) saved
      | _ =>
          decodeFields rest (<[ key := "" ]> values)
            (saveError saved (UnmarshalTypeError (kind v) "string"))
      end
  end.

(** [json.Unmarshal(data, &values)] for [values] of type
    [map[string]string]: [null] makes the map [nil], an object is read into
    the map, and every other document is a type error. *)
Definition Unmarshal (data : value) (values : gmap string string)
    : option error * gmap string string :=
  match data with
  | JObject fields => decodeFields fields values None
  | JNull => (None, ∅)
  | _ => (Some (UnmarshalTypeError (kind data) "map[string]string"), values)
  end.

(** Whether a byte lies between two bounds. *)
Definition byteIn (lo hi : N) (b : ascii) : bool :=
  (N.leb lo (N_of_ascii b) && N.leb (N_of_ascii b) hi)%bool.

Definition isContinuation (b : ascii) : bool := byteIn 128 191 b.

(** [utf8.DecodeRuneInString]: the number of bytes of the UTF-8 encoding
    that a string starts with, and 0 when it starts with none (the rune
    error of width 1).  A leading byte C2..DF takes one continuation byte,
    E0..EF two and F0..F4 three; after E0, ED, F0 and F4 the second byte is
    restricted, which rules out overlong encodings, surrogates and code
    points above 10FFFF. *)
Definition runeSize (s : string) : nat :=
  match s with
  | EmptyString => 0%nat
  | String b0 rest0 =>
      if byteIn 0 127 b0 then 1%nat
      else
        match rest0 with
        | EmptyString => 0%nat
        | String b1 rest1 =>
            if byteIn 194 223 b0 then
              if isContinuation b1 then 2%nat else 0%nat
            else
              let second3 :=
                if byteIn 224 224 b0 then byteIn 160 191 b1
                else if byteIn 237 237 b0 then byteIn 128 159 b1
                else if byteIn 225 239 b0 then isContinuation b1
                else false in
              let second4 :=
                if byteIn 240 240 b0 then byteIn 144 191 b1
                else if byteIn 241 243 b0 then isContinuation b1
                else if byteIn 244 244 b0 then byteIn 128 143 b1
                else false in
              match rest1 with
              | EmptyString => 0%nat
              | String b2 rest2 =>
                  if (second3 && isContinuation b2)%bool then 3%nat
                  else
                    match rest2 with
                    | EmptyString => 0%nat
                    | String b3 _ =>
                        if (second4 && isContinuation b2 && isContinuation b3)%bool
                        then 4%nat else 0%nat
                    end
              end
        end
  end.

(** The UTF-8 encoding of U+FFFD, the replacement character. *)
Definition replacementCharacter : string :=
  String "239" (String "191" (String "189" EmptyString)).

(** The string from its byte at hand onwards, [skip] bytes being the rest
    of an encoding that was found valid. *)
Fixpoint coerceFrom (skip : nat) (s : string) : string :=
  match s with
  | EmptyString => EmptyString
  | String b rest =>
      match skip with
      | S skip' => String b (coerceFrom skip' rest)
      | O =>
          match runeSize s with
          | O => replacementCharacter +:+ coerceFrom 0 rest
          | S skip' => String b (coerceFrom skip' rest)
          end
      end
  end.

(** What a Go string is once [json.Marshal] has written it as a JSON
    string: every byte that does not begin a valid UTF-8 encoding is
    replaced by U+FFFD, and the rest is kept. *)
Definition toValidUTF8 (s : string) : string := coerceFrom 0 s.

(** [utf8.ValidString]: every byte begins or continues a valid encoding. *)
Fixpoint validFrom (skip : nat) (s : string) : bool :=
  match s with
  | EmptyString => true
  | String b rest =>
      match skip with
      | S skip' => validFrom skip' rest
      | O =>
          match runeSize s with
          | O => false
          | S skip' => validFrom skip' rest
          end
      end
  end.

Definition ValidString (s : string) : bool := validFrom 0 s.

(** A member value decoded into an [interface{}] and encoded again.
    [null], booleans and strings come back as they are.  Numbers become
    [float64], arrays and objects become slices and maps: what comes back
    for them, or the error of a number that [float64] cannot hold, is
    decided by [convert], outside the sources. *)
Definition viaInterface (convert : value → error + value) (v : value)
    : error + value :=
  match v with
  | JNull | JBool _ | JString _ => inr v
  | _ => convert v
  end.

(** Decoding the fields of an object into a [map[string]interface{}]: each
    key is stored, the last of a repeated key wins, the first error is kept
    and the decoding goes on. *)
Fixpoint decodeMembers (convert : value → error + value)
    (fields : list (string * value)) (data : gmap string value)
    (saved : option error) : option error * gmap string value :=
  match fields with
  | [] => (saved, data)
  | (key, v) :: rest =>
      match viaInterface convert v with
      | inr v' => decodeMembers convert rest (<[ key := v' ]> data) saved
      | inl err =>
          decodeMembers convert rest (<[ key := JNull ]> data)
            (saveError saved err)
      end
  end.

(** [json.Unmarshal(data, &m)] for [m] of type [map[string]interface{}]. *)
Definition UnmarshalGeneric (convert : value → error + value) (doc : value)
    (data : gmap string value) : option error * gmap string value :=
  match doc with
  | JObject fields => decodeMembers convert fields data None
  | JNull => (None, ∅)
  | _ =>
      (Some (UnmarshalTypeError (kind doc) "map[string]interface {}"), data)
  end.

(** The value of the last field of a name in an object, which is the one
    that a decoder into a map keeps. *)
Fixpoint lastField (name : string) (fields : list (string * value))
    : option value :=
  match fields with
  | [] => None
  | (key, v) :: rest =>
      match lastField name rest with
      | Some v' => Some v'
      | None => if String.eqb key name then Some v else None
      end
  end.

(** The Go string that a value decodes to where the decoder raises no
    error: the string itself, and the zero value for [null]. *)
Definition stringOf (v : value) : string :=
  match v with
  | JString s => s
  | _ => ""
  end.

End json.

(** ** Package [model]: resources *)
Module model.

Definition ResourceType : Type := string.

Record ResourceMeta := {
  GetName : string;
  GetNamespace : string;
  GetVersion : nat
}.

(** A [model.Resource], seen through its getters.  [Spec] is the type of
    the specs, protobuf messages of any shape. *)
Record Resource (Spec : Type) := {
  GetType : ResourceType;
  GetMeta : ResourceMeta;
  GetSpec : Spec
}.
Arguments GetType {Spec} _.
Arguments GetMeta {Spec} _.
Arguments GetSpec {Spec} _.

(** A [model.ResourceList]. *)
Record ResourceList (Spec : Type) := {
  GetItemType : ResourceType;
  GetItems : list (Resource Spec)
}.
Arguments GetItemType {Spec} _.
Arguments GetItems {Spec} _.

(** The method [SetSpec] of the resource implementations, which are outside
    the sources: it returns an error or [nil], and the resource as the call
    left it. *)
Class ResourceModel (Spec : Type) := {
  SetSpec : Resource Spec → Spec → option error * Resource Spec
}.

End model.

(** ** Package [jsonpb] *)
Module jsonpb.

(** [Unmarshaler.Unmarshal] with [AllowUnknownFields], reading a JSON
    document into a spec in place: the error, if any, and the spec as the
    call left it. *)
Class Unmarshaler (Spec : Type) := {
  Unmarshal : json.value → Spec → option error * Spec
}.

(** [Marshaler.Marshal], writing a spec as a JSON document. *)
Class Marshaler (Spec : Type) := {
  Marshal : Spec → error + json.value
}.

End jsonpb.

(** ** Package [store]: the Resource Store interface *)
Module store.

Import model.

Record CreateOptions := CreateByName {
  CreateNamespace : string; CreateName : string
}.

Record GetOptions := GetByName {
  GetOptNamespace : string; GetOptName : string
}.

Record DeleteOptions := DeleteByName {
  DeleteNamespace : string; DeleteName : string
}.

Record ListOptions := ListByNamespace {
  ListNamespace : string
}.

(** Modelled from the spec: the constructors of the store's errors are
    outside the sources.  The handlers only compare the message of an error
    with the message of [ErrorResourceNotFound]; the wording is immaterial. *)
Definition ErrorResourceNotFound (rt : ResourceType) (namespace name : string)
    : error :=
  "Resource not found: type=" +:+ rt +:+ " namespace=" +:+ namespace
    +:+ " name=" +:+ name.

Definition ErrorResourceAlreadyExists (rt : ResourceType)
    (namespace name : string) : error :=
  "Resource already exists: type=" +:+ rt +:+ " namespace=" +:+ namespace
    +:+ " name=" +:+ name.

Definition ErrorResourceConflict (rt : ResourceType)
    (namespace name : string) : error :=
  "Resource conflict: type=" +:+ rt +:+ " namespace=" +:+ namespace
    +:+ " name=" +:+ name.

(** The interface [ResourceStore] over a backend with states [S].  [Get] and
    [List] fill the resource or list they are given and leave the backend as
    it is; the writing operations return an error or the next state. *)
Class ResourceStore (Spec S : Type) := {
  Create : S → Resource Spec → CreateOptions → error + S;
  Get : S → Resource Spec → GetOptions → error + Resource Spec;
  Update : S → Resource Spec → error + S;
  Delete : S → Resource Spec → DeleteOptions → error + S;
  List : S → ResourceList Spec → ListOptions → error + ResourceList Spec
}.

End store.

(** ** Package [api_server]: the resource web service *)
Module api_server.

Import model store.

Definition namespace : string := "default".

(** [ResourceWsDefinition].  The two factories return a fresh, empty
    resource or list at every call; they are given by the value returned. *)
Record ResourceWsDefinition (Spec : Type) := {
  Name : string;
  Path : string;
  ResourceFactory : Resource Spec;
  ResourceListFactory : ResourceList Spec
}.
Arguments Name {Spec} _.
Arguments Path {Spec} _.
Arguments ResourceFactory {Spec} _.
Arguments ResourceListFactory {Spec} _.

(** [ResourceReqResp], the JSON envelope of a resource.  Its fields [Type],
    [Name], [Mesh] and [Spec] carry an underscore here: [Type] is a keyword,
    and [Name] is a field of [ResourceWsDefinition] too. *)
Record ResourceReqResp (Spec : Type) := {
  Type_ : string;
  Name_ : string;
  Mesh_ : string;
  Spec_ : Spec
}.
Arguments Build_ResourceReqResp {Spec} _ _ _ _.
Arguments Type_ {Spec} _.
Arguments Name_ {Spec} _.
Arguments Mesh_ {Spec} _.
Arguments Spec_ {Spec} _.

Record resourceSpecList (Spec : Type) := {
  Items : list (ResourceReqResp Spec)
}.
Arguments Build_resourceSpecList {Spec} _.
Arguments Items {Spec} _.

(** What a handler hands to [WriteAsJson]. *)
Inductive Entity (Spec : Type) :=
| EntityResource (res : ResourceReqResp Spec)
| EntityList (specList : resourceSpecList Spec).
Arguments EntityResource {Spec} _.
Arguments EntityList {Spec} _.

(** The calls a handler makes on its [restful.Response], in order. *)
Inductive ResponseCall (Spec : Type) :=
| WriteErrorString (httpStatus : Z) (msg : string)
| WriteHeader (httpStatus : Z)
| WriteAsJson (entity : Entity Spec).
Arguments WriteErrorString {Spec} _ _.
Arguments WriteHeader {Spec} _.
Arguments WriteAsJson {Spec} _.

(** The calls a handler makes on the Resource Store, with their arguments. *)
Inductive StoreCall (Spec : Type) :=
| CallCreate (res : Resource Spec) (opts : CreateOptions)
| CallGet (res : Resource Spec) (opts : GetOptions)
| CallUpdate (res : Resource Spec)
| CallDelete (res : Resource Spec) (opts : DeleteOptions)
| CallList (list : ResourceList Spec) (opts : ListOptions).
Arguments CallCreate {Spec} _ _.
Arguments CallGet {Spec} _ _.
Arguments CallUpdate {Spec} _.
Arguments CallDelete {Spec} _ _.
Arguments CallList {Spec} _ _.

(** [restful.Request]: the path parameters and the body, [None] for a body
    that is not a JSON document. *)
Record Request := {
  PathParameters : gmap string string;
  Body : option json.value
}.

Definition PathParameter (request : Request) (name : string) : string :=
  map_index (PathParameters request) name.

(** Whether [WriteAsJson] fails to marshal an entity is decided outside
    the sources. *)
Class JsonWriter (Spec : Type) := {
  WriteAsJson_error : Entity Spec → option error
}.

(** What a handler acts on: the backend of [resourceStore], the calls
    received so far by the response and by the store. *)
Record World (Spec S : Type) := {
  backend : S;
  response : list (ResponseCall Spec);
  calls : list (StoreCall Spec)
}.
Arguments Build_World {Spec S} _ _ _.
Arguments backend {Spec S} _.
Arguments response {Spec S} _.
Arguments calls {Spec S} _.

(** Handlers thread the world through their steps. *)
Definition Handler (Spec S A : Type) : Type := World Spec S → A * World Spec S.

Definition ret {Spec S A} (a : A) : Handler Spec S A := λ w, (a, w).

Definition bind {Spec S A B} (m : Handler Spec S A) (k : A → Handler Spec S B)
    : Handler Spec S B :=
  λ w, let '(a, w') := m w in k a w'.

Definition exec {Spec S A} (m : Handler Spec S A) (w : World Spec S)
    : World Spec S :=
  snd (m w).

Declare Scope handler_scope.
Delimit Scope handler_scope with handler.
Notation "'let*' x ':=' m 'in' k" := (bind m (λ x, k))
  (at level 10, x name, m at level 100, k at level 200) : handler_scope.
Notation "'run' m 'in' k" := (bind m (λ _, k))
  (at level 10, m at level 100, k at level 200) : handler_scope.

Section Handlers.

Context {Spec S : Type}.
Context `{!ResourceModel Spec, !jsonpb.Unmarshaler Spec}.
Context `{!ResourceStore Spec S, !JsonWriter Spec}.

Local Open Scope handler_scope.

(** *** The response and the store, as a handler uses them *)

Definition respond (c : ResponseCall Spec) : Handler Spec S unit :=
  λ w, (tt, Build_World (backend w) (response w ++ [c]) (calls w)).

Definition called (c : StoreCall Spec) : Handler Spec S unit :=
  λ w, (tt, Build_World (backend w) (response w) (calls w ++ [c])).

Definition response_WriteHeader (httpStatus : Z) : Handler Spec S unit :=
  respond (WriteHeader httpStatus).

Definition response_WriteAsJson (entity : Entity Spec) : Handler Spec S (option error) :=
  run respond (WriteAsJson entity) in ret (WriteAsJson_error entity).

(** [writeError]: an error of [WriteErrorString] is only logged. *)
Definition writeError (httpStatus : Z) (msg : string) : Handler Spec S unit :=
  respond (WriteErrorString httpStatus msg).

Definition resourceStore_Get (res : Resource Spec) (opts : GetOptions)
    : Handler Spec S (error + Resource Spec) :=
  run called (CallGet res opts) in λ w, (Get (backend w) res opts, w).

Definition resourceStore_List (list : ResourceList Spec) (opts : ListOptions)
    : Handler Spec S (error + ResourceList Spec) :=
  run called (CallList list opts) in λ w, (List (backend w) list opts, w).

(** A writing operation: the backend moves on when the store accepts it. *)
Definition write (r : error + S) : Handler Spec S (option error) :=
  λ w, match r with
       | inl err => (Some err, w)
       | inr s => (None, Build_World s (response w) (calls w))
       end.

Definition resourceStore_Create (res : Resource Spec) (opts : CreateOptions)
    : Handler Spec S (option error) :=
  run called (CallCreate res opts) in λ w, write (Create (backend w) res opts) w.

Definition resourceStore_Update (res : Resource Spec) : Handler Spec S (option error) :=
  run called (CallUpdate res) in λ w, write (Update (backend w) res) w.

Definition resourceStore_Delete (res : Resource Spec) (opts : DeleteOptions)
    : Handler Spec S (option error) :=
  run called (CallDelete res opts) in λ w, write (Delete (backend w) res opts) w.

(** *** [ResourceReqResp.UnmarshalJSON]

    The receiver is a pointer: the result carries the envelope as the call
    left it, also when an error is returned. *)
Definition UnmarshalJSON (r : ResourceReqResp Spec) (jsonBytes : json.value)
    : option error * ResourceReqResp Spec :=
  let '(err, spec) := jsonpb.Unmarshal jsonBytes (Spec_ r) in
  let r := Build_ResourceReqResp (Type_ r) (Name_ r) (Mesh_ r) spec in
  match err with
  | Some err => (Some err, r)
  | None =>
      let '(err, values) := json.Unmarshal jsonBytes ∅ in
      match err with
      | Some err => (Some err, r)
      | None =>
          (None,
           Build_ResourceReqResp (map_index values "type")
             (map_index values "name") (map_index values "mesh") spec)
      end
  end.

(** [request.ReadEntity]: the JSON decoder refuses a body that is not a
    JSON document and otherwise hands the document to [UnmarshalJSON]. *)
Definition ReadEntity (request : Request) (entity : ResourceReqResp Spec)
    : option error * ResourceReqResp Spec :=
  match Body request with
  | None => (Some "invalid character looking for beginning of value", entity)
  | Some jsonBytes => UnmarshalJSON entity jsonBytes
  end.

(** *** The handlers *)

Definition isNotFound (err : error) (res : Resource Spec) (name : string)
    : bool :=
  String.eqb err (ErrorResourceNotFound (GetType res) namespace name).

Definition findResource (r : ResourceWsDefinition Spec) (request : Request)
    : Handler Spec S unit :=
  let name := PathParameter request "name" in
  let meshName := PathParameter request "mesh" in
  let resource := ResourceFactory r in
  let* got := resourceStore_Get resource (GetByName namespace name) in
  match got with
  | inl err =>
      if isNotFound err resource name then writeError 404 ""
      else writeError 500 "Could not retrieve a resource"
  | inr resource =>
      let res := Build_ResourceReqResp (GetType resource) name meshName
                   (GetSpec resource) in
      run response_WriteAsJson (EntityResource res) in ret tt
  end.

Definition listResources (r : ResourceWsDefinition Spec) (request : Request)
    : Handler Spec S unit :=
  let meshName := PathParameter request "mesh" in
  let list := ResourceListFactory r in
  let* listed := resourceStore_List list (ListByNamespace namespace) in
  match listed with
  | inl err => writeError 500 "Could not list a resource"
  | inr list =>
      let items :=
        fold_left
          (λ items item,
             items ++ [Build_ResourceReqResp (GetType item)
                         (GetName (GetMeta item)) meshName (GetSpec item)])
          (GetItems list) [] in
      let specList := Build_resourceSpecList items in
      let* err := response_WriteAsJson (EntityList specList) in
      match err with
      | Some _ => writeError 500 "Could not list a resource"
      | None => ret tt
      end
  end.

Definition validateResourceRequest (r : ResourceWsDefinition Spec)
    (request : Request) (resourceReq : ResourceReqResp Spec) : option error :=
  let name := PathParameter request "name" in
  let meshName := PathParameter request "mesh" in
  if negb (String.eqb name (Name_ resourceReq)) then
    Some "Name from the URL has to be the same as in body"
  else if negb (String.eqb (GetType (ResourceFactory r)) (Type_ resourceReq)) then
    Some "Type from the URL has to be the same as in body"
  else if negb (String.eqb meshName (Mesh_ resourceReq)) then
    Some "Mesh from the URL has to be the same as in body"
  else None.

Definition createResource (r : ResourceWsDefinition Spec) (name : string)
    (spec : Spec) : Handler Spec S unit :=
  let res := ResourceFactory r in
  let '(_, res) := SetSpec res spec in
  let* err := resourceStore_Create res (CreateByName namespace name) in
  match err with
  | Some _ => writeError 500 "Could not create a resource"
  | None => response_WriteHeader 201
  end.

Definition updateResource (res : Resource Spec) (spec : Spec) : Handler Spec S unit :=
  let '(_, res) := SetSpec res spec in
  let* err := resourceStore_Update res in
  match err with
  | Some _ => writeError 500 "Could not update a resource"
  | None => response_WriteHeader 200
  end.

Definition createOrUpdateResource (r : ResourceWsDefinition Spec)
    (request : Request) : Handler Spec S unit :=
  let name := PathParameter request "name" in
  let resourceRes :=
    Build_ResourceReqResp "" "" "" (GetSpec (ResourceFactory r)) in
  let '(err, resourceRes) := ReadEntity request resourceRes in
  run match err with
      | Some _ => writeError 400 "Could not process the resource"
      | None => ret tt
      end in
  match validateResourceRequest r request resourceRes with
  | Some err => writeError 400 err
  | None =>
      let resource := ResourceFactory r in
      let* got := resourceStore_Get resource (GetByName namespace name) in
      match got with
      | inl err =>
          if isNotFound err resource name then
            createResource r name (Spec_ resourceRes)
          else writeError 500 "Could not create a resource"
      | inr resource => updateResource resource (Spec_ resourceRes)
      end
  end.

Definition deleteResource (r : ResourceWsDefinition Spec) (request : Request)
    : Handler Spec S unit :=
  let name := PathParameter request "name" in
  let resource := ResourceFactory r in
  let* err := resourceStore_Delete resource (DeleteByName namespace name) in
  match err with
  | Some _ => writeError 500 "Could not delete a resource"
  | None => ret tt
  end.

End Handlers.

(** *** [ResourceReqResp.MarshalJSON] *)
Section Marshalling.

Context {Spec : Type} `{!jsonpb.Marshaler Spec}.

(** How [encoding/json] brings back numbers, arrays and objects that went
    through an [interface{}]. *)
Variable convert : json.value → error + json.value.

(** [json.Marshal(res)] for the envelope without its spec, which the tag
    [json:"-"] leaves out.  The three strings are written as JSON strings,
    which makes them valid UTF-8. *)
Definition metaJson (r : ResourceReqResp Spec) : json.value :=
  json.JObject [ ("type", json.JString (json.toValidUTF8 (Type_ r)));
                 ("name", json.JString (json.toValidUTF8 (Name_ r)));
                 ("mesh", json.JString (json.toValidUTF8 (Mesh_ r))) ].

(** [MarshalJSON] up to the map [data] that the final [json.Marshal]
    writes, as an object with one member per key. *)
Definition MarshalJSON (r : ResourceReqResp Spec)
    : error + gmap string json.value :=
  match jsonpb.Marshal (Spec_ r) with
  | inl err => inl err
  | inr specJsonBytes =>
      let metaJsonBytes := metaJson r in
      match json.UnmarshalGeneric convert specJsonBytes ∅ with
      | (Some err, _) => inl err
      | (None, data) =>
          match json.UnmarshalGeneric convert metaJsonBytes data with
          | (Some err, _) => inl err
          | (None, data) => inr data
          end
      end
  end.

End Marshalling.

(** *** [NewWs]: the routes of a resource web service *)

Inductive HttpMethod := GET | PUT | DELETE.

(** The method of [resourceWs] that a route leads to. *)
Inductive RouteFunction :=
| To_findResource
| To_listResources
| To_createOrUpdateResource
| To_deleteResource.

Record Route := {
  Method : HttpMethod;
  SubPath : string;
  To : RouteFunction;
  Doc : string;
  RouteParams : list string;
  Returns : list (Z * string)
}.

Record WebService := {
  RootPath : string;
  Consumes : list string;
  Produces : list string;
  PathParams : list string;
  Routes : list Route
}.

Definition MIME_JSON : string := "application/json".

(** [resourceWs]: its store is the backend of the world. *)
Record resourceWs (Spec : Type) := {
  readOnly : bool;
  definition : ResourceWsDefinition Spec
}.
Arguments readOnly {Spec} _.
Arguments definition {Spec} _.

Definition NewWs {Spec : Type} (r : resourceWs Spec) : WebService :=
  let name := Name (definition r) in
  let reading :=
    [ {| Method := GET; SubPath := "/{name}"; To := To_findResource;
         Doc := "Get a " +:+ name; RouteParams := ["name"];
         Returns := [(200, "OK"); (404, "Not found")] |};
      {| Method := GET; SubPath := ""; To := To_listResources;
         Doc := "List of " +:+ name; RouteParams := [];
         Returns := [(200, "OK")] |} ] in
  let writing :=
    [ {| Method := PUT; SubPath := "/{name}"; To := To_createOrUpdateResource;
         Doc := "Updates a " +:+ name; RouteParams := ["name"];
         Returns := [(200, "OK"); (201, "Created")] |};
      {| Method := DELETE; SubPath := "/{name}"; To := To_deleteResource;
         Doc := "Deletes a " +:+ name; RouteParams := ["name"];
         Returns := [(200, "OK")] |} ] in
  {| RootPath := "/meshes/{mesh}/" +:+ Path (definition r);
     Consumes := [MIME_JSON];
     Produces := [MIME_JSON];
     PathParams := ["mesh"];
     Routes := if negb (readOnly r) then reading ++ writing else reading |}.

(** The handler that a route of [r] runs. *)
Definition routeFunction {Spec S : Type}
    `{!ResourceModel Spec, !jsonpb.Unmarshaler Spec}
    `{!ResourceStore Spec S, !JsonWriter Spec}
    (r : resourceWs Spec) (to : RouteFunction)
    : Request → Handler Spec S unit :=
  match to with
  | To_findResource => findResource (definition r)
  | To_listResources => listResources (definition r)
  | To_createOrUpdateResource => createOrUpdateResource (definition r)
  | To_deleteResource => deleteResource (definition r)
  end.

(** Whether a call on the store only reads. *)
Definition isRead {Spec : Type} (c : StoreCall Spec) : bool :=
  match c with
  | CallGet _ _ | CallList _ _ => true
  | _ => false
  end.

End api_server.

(** ** Package [api_server]: the index endpoint *)
Module index_ws.

(** [types.IndexResponse]. *)
Record IndexResponse := {
  Hostname : string;
  Tagline : string;
  Version : string;
  InstanceId : string;
  ClusterId : string
}.

(** The variables that the handler of [GET /] closes over: the host name
    read when the endpoint was added, and the two identifiers, empty until
    they are known.  Requests are served one after the other. *)
Record IndexEndpoint := {
  hostname : string;
  instanceId : string;
  clusterId : string
}.

(** The calls of a request on the two functions it was given. *)
Inductive GetterCall := CallGetInstanceId | CallGetClusterId.

Section Index.

(** [kuma_version.Product] and [kuma_version.Build.Version], constants from
    outside the sources. *)
Variable Product : string.
Variable BuildVersion : string.

(** What [getInstanceId] and [getClusterId] return depends on the moment
    they are called: [Env] is the state of the control plane that they
    read. *)
Variable Env : Type.
Variable getInstanceId : Env → string.
Variable getClusterId : Env → string.

Definition kumaAPIIndexResponse (hostname instanceId clusterId : string)
    : IndexResponse :=
  {| Hostname := hostname;
     Tagline := Product;
     Version := BuildVersion;
     InstanceId := instanceId;
     ClusterId := clusterId |}.

(** [addIndexWsEndpoints]: nothing is added when [os.Hostname] fails. *)
Definition addIndexWsEndpoints (os_Hostname : error + string)
    : error + IndexEndpoint :=
  match os_Hostname with
  | inl err => inl err
  | inr hostname =>
      inr {| hostname := hostname; instanceId := ""; clusterId := "" |}
  end.

(** The handler of [GET /], for the package variable [APIIndexResponseFn]
    at its initial value [kumaAPIIndexResponse]: the endpoint after the
    request, the entity given to [WriteAsJson] and the calls made. *)
Definition serveIndex (env : Env) (st : IndexEndpoint)
    : IndexEndpoint * IndexResponse * list GetterCall :=
  let '(instanceId', calls1) :=
    if String.eqb (instanceId st) "" then
      (getInstanceId env, [CallGetInstanceId])
    else (instanceId st, []) in
  let '(clusterId', calls2) :=
    if String.eqb (clusterId st) "" then
      (getClusterId env, [CallGetClusterId])
    else (clusterId st, []) in
  let response := kumaAPIIndexResponse (hostname st) instanceId' clusterId' in
  ({| hostname := hostname st;
      instanceId := instanceId';
      clusterId := clusterId' |},
   response, calls1 ++ calls2).

(** A run of requests, one per state of the control plane. *)
Fixpoint serveAll (envs : list Env) (st : IndexEndpoint)
    : list (IndexResponse * list GetterCall) :=
  match envs with
  | [] => []
  | env :: envs =>
      let '(st', response, calls) := serveIndex env st in
      (response, calls) :: serveAll envs st'
  end.

End Index.

(** The first of some identifiers that is known, that is, not empty. *)
Definition firstKnown (ids : list string) : string :=
  default "" (head (filter (λ id, id ≠ "") ids)).

End index_ws.

(** ** An in-memory Resource Store *)
Module memory.

Import model store.

Section MemoryStore.

Context {Spec : Type}.

(** The backends of the Resource Store are outside the sources; this one
    follows the contract that the spec gives for all of them.  It keeps the
    stored resources in a list, each under the key made of its type, its
    namespace (the scope of the store operations) and its name. *)

(** Modelled from the spec: the key of a stored resource, which the spec
    gives as type, scope and name. *)
Definition hasKey (rt : ResourceType) (namespace name : string)
    (res : Resource Spec) : bool :=
  String.eqb (GetType res) rt
  && String.eqb (GetNamespace (GetMeta res)) namespace
  && String.eqb (GetName (GetMeta res)) name.

(** Modelled from the spec: the stored resource of a key, if any. *)
Definition lookup (rt : ResourceType) (namespace name : string)
    (s : list (Resource Spec)) : option (Resource Spec) :=
  List.find (hasKey rt namespace name) s.

(** Modelled from the spec: the store without the resource of a key. *)
Definition remove (rt : ResourceType) (namespace name : string)
    (s : list (Resource Spec)) : list (Resource Spec) :=
  List.filter (λ res, negb (hasKey rt namespace name res)) s.

(** Modelled from the spec: [Create] of a backend fails with
    [AlreadyExists] when the key is present and otherwise stores the
    resource at version 1. *)
Definition memory_Create (s : list (Resource Spec)) (res : Resource Spec)
    (opts : CreateOptions) : error + list (Resource Spec) :=
  let '(CreateByName namespace name) := opts in
  match lookup (GetType res) namespace name s with
  | Some _ => inl (ErrorResourceAlreadyExists (GetType res) namespace name)
  | None =>
      inr (s ++ [ {| GetType := GetType res;
                     GetMeta := {| GetName := name;
                                   GetNamespace := namespace;
                                   GetVersion := 1%nat |};
                     GetSpec := GetSpec res |} ])
  end.

(** Modelled from the spec: [Get] of a backend fills the resource, and
    fails with [NotFound] when the key is absent. *)
Definition memory_Get (s : list (Resource Spec)) (res : Resource Spec)
    (opts : GetOptions) : error + Resource Spec :=
  let '(GetByName namespace name) := opts in
  match lookup (GetType res) namespace name s with
  | Some stored => inr stored
  | None => inl (ErrorResourceNotFound (GetType res) namespace name)
  end.

(** Modelled from the spec: [Update] of a backend fails with [Conflict]
    unless the version of the resource is the stored one, and then stores
    the resource at the next version.  The spec does not say what [Update]
    does for an absent key; it is [NotFound] here. *)
Definition memory_Update (s : list (Resource Spec)) (res : Resource Spec)
    : error + list (Resource Spec) :=
  let rt := GetType res in
  let namespace := GetNamespace (GetMeta res) in
  let name := GetName (GetMeta res) in
  match lookup rt namespace name s with
  | None => inl (ErrorResourceNotFound rt namespace name)
  | Some stored =>
      if Nat.eqb (GetVersion (GetMeta stored)) (GetVersion (GetMeta res)) then
        inr (remove rt namespace name s
             ++ [ {| GetType := rt;
                     GetMeta := {| GetName := name;
                                   GetNamespace := namespace;
                                   GetVersion := S (GetVersion (GetMeta res)) |};
                     GetSpec := GetSpec res |} ])
      else inl (ErrorResourceConflict rt namespace name)
  end.

(** Modelled from the spec: [Delete] of a backend fails with [NotFound]
    when the key is absent and otherwise removes the resource. *)
Definition memory_Delete (s : list (Resource Spec)) (res : Resource Spec)
    (opts : DeleteOptions) : error + list (Resource Spec) :=
  let '(DeleteByName namespace name) := opts in
  match lookup (GetType res) namespace name s with
  | None => inl (ErrorResourceNotFound (GetType res) namespace name)
  | Some _ => inr (remove (GetType res) namespace name s)
  end.

(** Modelled from the spec: [List] of a backend fills the list with the
    resources of its type in the scope asked for. *)
Definition memory_List (s : list (Resource Spec)) (list : ResourceList Spec)
    (opts : ListOptions) : error + ResourceList Spec :=
  let '(ListByNamespace namespace) := opts in
  inr {| GetItemType := GetItemType list;
         GetItems :=
           List.filter
             (λ res, String.eqb (GetType res) (GetItemType list)
                     && String.eqb (GetNamespace (GetMeta res)) namespace)
             s |}.

#[export] Instance memoryStore : ResourceStore Spec (list (Resource Spec)) := {
  Create := memory_Create;
  Get := memory_Get;
  Update := memory_Update;
  Delete := memory_Delete;
  List := memory_List
}.

End MemoryStore.

End memory.

(** ** A sample deployment, on which the handlers and the configurer are run *)
Module samples.

Import model store api_server.

(** Specs of two shapes. *)
Inductive SampleSpec :=
| TrafficRoute (path : string)
| ProxyTemplate (imports : list string).

Definition shape (spec : SampleSpec) : ResourceType :=
  match spec with
  | TrafficRoute _ => "TrafficRoute"
  | ProxyTemplate _ => "ProxyTemplate"
  end.

(** Modelled from the spec: [SetSpec] rejects a spec whose shape is not the
    one the resource's type declares, and otherwise stores it. *)
Definition sample_SetSpec (res : Resource SampleSpec) (spec : SampleSpec)
    : option error * Resource SampleSpec :=
  if String.eqb (shape spec) (GetType res) then
    (None, {| GetType := GetType res; GetMeta := GetMeta res; GetSpec := spec |})
  else (Some "invalid type of spec", res).

#[export] Instance sampleModel : ResourceModel SampleSpec := {
  SetSpec := sample_SetSpec
}.

(** The value of the last field of a name in a JSON object. *)
Fixpoint field (name : string) (fields : list (string * json.value))
    : option json.value :=
  match fields with
  | [] => None
  | (key, v) :: rest =>
      match field name rest with
      | Some v' => Some v'
      | None => if String.eqb key name then Some v else None
      end
  end.

(** A stand-in for [jsonpb] on the sample specs: it reads a JSON object
    into a traffic route, whose field [path] must be a string or [null]
    when it is there; unknown fields are allowed. *)
Definition sample_Unmarshal (data : json.value) (spec : SampleSpec)
    : option error * SampleSpec :=
  match data with
  | json.JObject fields =>
      match spec, field "path" fields with
      | TrafficRoute _, Some (json.JString path) => (None, TrafficRoute path)
      | TrafficRoute _, Some json.JNull => (None, spec)
      | TrafficRoute _, Some _ => (Some "bad input: path is not a string", spec)
      | _, _ => (None, spec)
      end
  | _ => (Some "bad input: not an object", spec)
  end.

#[export] Instance sampleUnmarshaler : jsonpb.Unmarshaler SampleSpec := {
  jsonpb.Unmarshal := sample_Unmarshal
}.

(** A response on which [WriteAsJson] always succeeds. *)
#[export] Instance sampleWriter : JsonWriter SampleSpec := {
  WriteAsJson_error := λ _, None
}.

Definition trafficRouteWs : ResourceWsDefinition SampleSpec :=
  {| Name := "Traffic Route";
     Path := "traffic-routes";
     ResourceFactory :=
       {| GetType := "TrafficRoute";
          GetMeta := {| GetName := ""; GetNamespace := ""; GetVersion := 0%nat |};
          GetSpec := TrafficRoute "" |};
     ResourceListFactory :=
       {| GetItemType := "TrafficRoute"; GetItems := [] |} |}.

(** A definition whose resources have the empty type name. *)
Definition untypedWs : ResourceWsDefinition SampleSpec :=
  {| Name := "";
     Path := "";
     ResourceFactory :=
       {| GetType := "";
          GetMeta := {| GetName := ""; GetNamespace := ""; GetVersion := 0%nat |};
          GetSpec := TrafficRoute "" |};
     ResourceListFactory := {| GetItemType := ""; GetItems := [] |} |}.

Definition emptyWorld : World SampleSpec (list (Resource SampleSpec)) :=
  Build_World [] [] [].

Definition params (mesh name : string) : gmap string string :=
  <[ "mesh" := mesh ]> (<[ "name" := name ]> ∅).

(** [PUT /meshes/B/traffic-routes/r1] with a matching envelope. *)
Definition putR1InMeshB : Request :=
  {| PathParameters := params "B" "r1";
     Body := Some (json.JObject
       [ ("type", json.JString "TrafficRoute");
         ("name", json.JString "r1");
         ("mesh", json.JString "B");
         ("path", json.JString "/api") ]) |}.

(** [GET /meshes/A/traffic-routes]. *)
Definition listMeshA : Request :=
  {| PathParameters := <[ "mesh" := "A" ]> ∅; Body := None |}.

(** [GET] or [DELETE /meshes/default/traffic-routes/absent]. *)
Definition absentInDefault : Request :=
  {| PathParameters := params "default" "absent"; Body := None |}.

(** A [PUT] whose body is not JSON, with empty path parameters. *)
Definition putGarbage : Request :=
  {| PathParameters := ∅; Body := None |}.

(** A marshaller that never fails; the bytes stand for the encoding. *)
Definition sample_MarshalAny (rule : rbac.RBAC) : error + ptypes.Any :=
  inr {| ptypes.TypeUrl :=
           "type.googleapis.com/envoy.config.filter.network.rbac.v2.RBAC";
         ptypes.Value := list_byte_of_string (rbac.StatPrefix rule) |}.

Definition tcpProxy : envoy_listener.Filter :=
  {| envoy_listener.Name := "envoy.tcp_proxy";
     envoy_listener.ConfigType := Some (envoy_listener.Filter_Config "tcp") |}.

Definition httpInspector : envoy_listener.Filter :=
  {| envoy_listener.Name := "envoy.http_connection_manager";
     envoy_listener.ConfigType := Some (envoy_listener.Filter_Config "http") |}.

Definition inbound : v2.Listener :=
  {| v2.Name := "inbound:127.0.0.1:21011";
     v2.Address := "127.0.0.1:21011";
     v2.FilterChains :=
       [ {| envoy_listener.ChainName := "plain";
            envoy_listener.Filters := [httpInspector; tcpProxy] |};
         {| envoy_listener.ChainName := "tls";
            envoy_listener.Filters := [tcpProxy] |} ] |}.

(** The permission of the spec's scenario: [allow-all] in mesh [default],
    with the single source [service: *]. *)
Definition allowAll : mesh_core.TrafficPermissionResource :=
  {| mesh_core.Meta := {| mesh_core.GetName := "allow-all";
                          mesh_core.GetMesh := "default";
                          mesh_core.GetVersion := "1" |};
     mesh_core.Spec :=
       {| v1alpha1.Sources := [ {| v1alpha1.Match := <[ "service" := "*" ]> ∅ |} ];
          v1alpha1.Destinations := [] |} |}.

Definition noPermissions : mesh_core.TrafficPermissionResourceList :=
  {| mesh_core.Items := [] |}.

End samples.

(** ** protobuf's marshaller and the order of a Go map *)
Module proto.

(** The keys of a Go map in the order of one [range] over it.  The
    marshaller of protobuf writes the entries of a map field in that order,
    and the Go runtime picks the order anew at every [range]. *)
Definition MapOrder : Type := list string.

(** [order] is a visit of the map [m]: each of its keys once. *)
Definition visits {A : Type} (order : MapOrder) (m : gmap string A) : Prop :=
  NoDup order ∧ list_to_set order = dom m.

(** The entries of a map in the order of a visit. *)
Definition entriesIn {A : Type} (order : MapOrder) (m : gmap string A)
    : list (string * A) :=
  omap (λ key, pair key <$> m !! key) order.

(** The message [rbac.RBAC] as the marshaller writes it: its fields, the
    entries of the policy map one after the other. *)
Record RBACWire := {
  WireRules :
    option (rbac_config.RBAC_Action * list (string * rbac_config.Policy));
  WireStatPrefix : string
}.

Definition policiesOf (rule : rbac.RBAC) : gmap string rbac_config.Policy :=
  from_option rbac_config.Policies ∅ (rbac.Rules rule).

Definition wireOf (order : MapOrder) (rule : rbac.RBAC) : RBACWire :=
  {| WireRules :=
       (λ rules, (rbac_config.Action rules,
                  entriesIn order (rbac_config.Policies rules)))
         <$> rbac.Rules rule;
     WireStatPrefix := rbac.StatPrefix rule |}.

(** [ptypes.MarshalAny] on a rule, for the order [order] in which this call
    ranges over the policy map and the encoding [encode] of the fields
    written, which is outside the sources. *)
Definition MarshalAnyIn (encode : RBACWire → error + ptypes.Any)
    (order : MapOrder) (rule : rbac.RBAC) : error + ptypes.Any :=
  encode (wireOf order rule).

End proto.

(** ** More of the sample deployment *)
Module samples_ws.

Import model store api_server samples.

(** A stand-in for [jsonpb] writing the sample specs. *)
Definition sample_Marshal (spec : SampleSpec) : error + json.value :=
  match spec with
  | TrafficRoute path => inr (json.JObject [ ("path", json.JString path) ])
  | ProxyTemplate imports =>
      inr (json.JObject
             [ ("imports", json.JArray (map json.JString imports)) ])
  end.

#[export] Instance sampleMarshaler : jsonpb.Marshaler SampleSpec := {
  jsonpb.Marshal := sample_Marshal
}.

(** A conversion through [interface{}] that changes nothing. *)
Definition sample_convert (v : json.value) : error + json.value := inr v.

Definition readOnlyWs : resourceWs SampleSpec :=
  {| readOnly := true; definition := trafficRouteWs |}.

Definition writableWs : resourceWs SampleSpec :=
  {| readOnly := false; definition := trafficRouteWs |}.

(** A world whose store holds the traffic route [r1]. *)
Definition worldWithR1 : World SampleSpec (list (Resource SampleSpec)) :=
  Build_World
    [ {| GetType := "TrafficRoute";
         GetMeta := {| GetName := "r1"; GetNamespace := "default";
                       GetVersion := 1%nat |};
         GetSpec := TrafficRoute "/api" |} ] [] [].

(** [PUT /meshes/B/traffic-routes/r1] with the name [r2] in its body. *)
Definition putR1NamedR2 : Request :=
  {| PathParameters := params "B" "r1";
     Body := Some (json.JObject
       [ ("type", json.JString "TrafficRoute");
         ("name", json.JString "r2");
         ("mesh", json.JString "B");
         ("path", json.JString "/api") ]) |}.

(** [GET] or [DELETE /meshes/A/traffic-routes/r1]. *)
Definition r1InMeshA : Request :=
  {| PathParameters := params "A" "r1"; Body := None |}.

(** [GET] or [DELETE /meshes/B/traffic-routes/r1]. *)
Definition r1InMeshB : Request :=
  {| PathParameters := params "B" "r1"; Body := None |}.

(** Two permissions of mesh [default] with different names. *)
Definition allowWeb : mesh_core.TrafficPermissionResource :=
  {| mesh_core.Meta := {| mesh_core.GetName := "allow-web";
                          mesh_core.GetMesh := "default";
                          mesh_core.GetVersion := "1" |};
     mesh_core.Spec :=
       {| v1alpha1.Sources := [ {| v1alpha1.Match := <[ "service" := "web" ]> ∅ |} ];
          v1alpha1.Destinations :=
            [ {| v1alpha1.Match := <[ "service" := "backend" ]> ∅ |} ] |} |}.

(** The envelope of the traffic route [r1] of mesh [default]. *)
Definition envelopeR1 : ResourceReqResp SampleSpec :=
  Build_ResourceReqResp "TrafficRoute" "r1" "default" (TrafficRoute "/api").

(** The envelope of a proxy template, whose spec holds a list. *)
Definition envelopeP1 : ResourceReqResp SampleSpec :=
  Build_ResourceReqResp "ProxyTemplate" "p1" "default" (ProxyTemplate ["base"]).

(** [PUT /meshes/default/traffic-routes/r1] with a body that is not JSON. *)
Definition putR1Garbage : Request :=
  {| PathParameters := params "default" "r1"; Body := None |}.

(** The route [GET /{name}] of the traffic routes. *)
Definition getTrafficRoute : Route :=
  {| Method := GET; SubPath := "/{name}"; To := To_findResource;
     Doc := "Get a Traffic Route"; RouteParams := ["name"];
     Returns := [(200, "OK"); (404, "Not found")] |}.

(** A permission of the mesh [a/b] and one of the mesh [a], and sources for
    the services [c] and [b/c]. *)
Definition permissionOfMesh (mesh : string) : mesh_core.TrafficPermissionResource :=
  {| mesh_core.Meta := {| mesh_core.GetName := "p";
                          mesh_core.GetMesh := mesh;
                          mesh_core.GetVersion := "1" |};
     mesh_core.Spec := {| v1alpha1.Sources := []; v1alpha1.Destinations := [] |} |}.

Definition sourceOfService (service : string) : v1alpha1.Selector :=
  {| v1alpha1.Match := <[ "service" := service ]> ∅ |}.

(** The members that [MarshalJSON] writes for [envelopeR1], in the order of
    their keys. *)
Definition membersOfR1 : list (string * json.value) :=
  [ ("mesh", json.JString "default");
    ("name", json.JString "r1");
    ("path", json.JString "/api");
    ("type", json.JString "TrafficRoute") ].

(** The same for [envelopeP1]. *)
Definition membersOfP1 : list (string * json.value) :=
  [ ("imports", json.JArray [json.JString "base"]);
    ("mesh", json.JString "default");
    ("name", json.JString "p1");
    ("type", json.JString "ProxyTemplate") ].

(** A stand-in for the wire encoding of a rule: the stat prefix, then the
    name of each policy in the order written. *)
Definition sample_encode (w : proto.RBACWire) : error + ptypes.Any :=
  inr {| ptypes.TypeUrl :=
           "type.googleapis.com/envoy.config.filter.network.rbac.v2.RBAC";
         ptypes.Value :=
           list_byte_of_string
             (proto.WireStatPrefix w
              +:+ String.concat ";"
                    (map fst (from_option snd [] (proto.WireRules w)))) |}.

(** The two visits of the policy map of [allow-all] and [allow-web]. *)
Definition allThenWeb : proto.MapOrder := ["allow-all"; "allow-web"].
Definition webThenAll : proto.MapOrder := ["allow-web"; "allow-all"].

(** [PUT /meshes/default/traffic-routes/r1] whose body has arrays, as the
    body of a real traffic permission has. *)
Definition putR1WithArray : Request :=
  {| PathParameters := params "default" "r1";
     Body := Some (json.JObject
       [ ("type", json.JString "TrafficRoute");
         ("name", json.JString "r1");
         ("mesh", json.JString "default");
         ("sources", json.JArray []) ]) |}.

(** The index endpoint of the host [cp-host], before its first request. *)
Definition indexOfCpHost : index_ws.IndexEndpoint :=
  {| index_ws.hostname := "cp-host";
     index_ws.instanceId := "";
     index_ws.clusterId := "" |}.

End samples_ws.

(** * Loops and strings

    A Go loop that appends one element per item to a slice leaves in the
    slice what it held before, followed by the image of each item, in
    order. *)
Lemma fold_left_append_map {A B : Type} (f : A → B) (l : list A) (acc : list B) :
  fold_left (λ acc x, acc ++ [f x]) l acc = acc ++ map f l.
Proof.
  revert acc.
  induction l as [|x l IH]; intros acc; cbn [fold_left map].
  - by rewrite app_nil_r.
  - rewrite IH. by rewrite <- app_assoc.
Qed.

(** The length of [s1 + s2] on Go strings. *)
Lemma string_length_append (s1 s2 : string) :
  String.length (s1 +:+ s2) = (String.length s1 + String.length s2)%nat.
Proof.
  induction s1 as [|c s1 IH]; [done|].
  change (S (String.length (s1 +:+ s2))
          = S (String.length s1 + String.length s2)).
  by rewrite IH.
Qed.

(** * Properties of the network RBAC configurer *)
Section ListenersProperties.

Import v1alpha1 mesh_core listeners.

Variable SanitizeMetric : string → string.
Variable MarshalAny : rbac.RBAC → error + ptypes.Any.

Lemma createPolicy_Principals (permission : TrafficPermissionResource) :
  rbac_config.Principals (createPolicy permission)
  = map (createPrincipal permission) (Sources (Spec permission)).
Proof.
  unfold createPolicy. cbn.
  apply (fold_left_append_map (createPrincipal permission) _ []).
Qed.

(** The loop of [createRbacRule]: what the map holds under a name afterwards
    is the policy of the last permission of that name, or what it held
    before when there is none. *)
Lemma createRbacRule_loop (items : list TrafficPermissionResource)
    (policies : gmap string rbac_config.Policy) (name : string) :
  fold_left
    (λ (policies : gmap string rbac_config.Policy) permission,
       <[ GetName (Meta permission) := createPolicy permission ]> policies)
    items policies !! name
  = match last (filter (λ p, GetName (Meta p) = name) items) with
    | Some permission => Some (createPolicy permission)
    | None => policies !! name
    end.
Proof.
  revert policies.
  induction items as [|permission items IH]; intros policies; [done|].
  cbn [fold_left]. rewrite IH. rewrite filter_cons.
  destruct (decide (GetName (Meta permission) = name)) as [Heq|Hne].
  - destruct (filter _ items) as [|q qs] eqn:Hf.
    + cbn. by rewrite <- Heq, lookup_insert_eq.
    + rewrite (last_cons permission (q :: qs)).
      destruct (last (q :: qs)); [done|].
      by rewrite <- Heq, lookup_insert_eq.
  - destruct (last _); [done|]. by rewrite lookup_insert_ne.
Qed.

Lemma createRbacRule_Policies (listenerName : string)
    (permissions : TrafficPermissionResourceList) (name : string) :
  ∃ rules,
    rbac.Rules (createRbacRule SanitizeMetric listenerName permissions) = Some rules
    ∧ rbac_config.Action rules = rbac_config.RBAC_ALLOW
    ∧ rbac_config.Policies rules !! name
      = createPolicy <$> last (filter (λ p, GetName (Meta p) = name) (Items permissions)).
Proof.
  eexists. split; [reflexivity|]. split; [reflexivity|]. cbn.
  rewrite createRbacRule_loop. by destruct (last _).
Qed.

(** When the filter can be built, the loop of [Configure] puts it in front
    of every chain. *)
Lemma configureChains_ok (listenerName : string)
    (permissions : TrafficPermissionResourceList)
    (filter : envoy_listener.Filter) (chains : list envoy_listener.FilterChain) :
  createRbacFilter SanitizeMetric MarshalAny listenerName permissions = inr filter →
  configureChains SanitizeMetric MarshalAny listenerName permissions chains
  = (None, map (prependFilter filter) chains).
Proof.
  intros Hfilter.
  induction chains as [|chain chains IH]; [done|].
  cbn [configureChains map]. by rewrite Hfilter, IH.
Qed.

(** When the filter cannot be built, [Configure] fails at the first chain
    and changes nothing; a listener without chains is left as it is. *)
Lemma configureChains_error (listenerName : string)
    (permissions : TrafficPermissionResourceList) (err : error)
    (chains : list envoy_listener.FilterChain) :
  createRbacFilter SanitizeMetric MarshalAny listenerName permissions = inl err →
  configureChains SanitizeMetric MarshalAny listenerName permissions chains
  = (match chains with [] => None | _ => Some err end, chains).
Proof.
  intros Hfilter. destruct chains as [|chain chains]; [done|].
  cbn [configureChains]. by rewrite Hfilter.
Qed.

Lemma createRbacFilter_inr (listenerName : string)
    (permissions : TrafficPermissionResourceList) (config : ptypes.Any) :
  MarshalAny (createRbacRule SanitizeMetric listenerName permissions) = inr config →
  createRbacFilter SanitizeMetric MarshalAny listenerName permissions
  = inr {| envoy_listener.Name := envoy_wellknown.RoleBasedAccessControl;
           envoy_listener.ConfigType :=
             Some (envoy_listener.Filter_TypedConfig config) |}.
Proof. intros Hm. unfold createRbacFilter. by rewrite Hm. Qed.

Lemma prependFilter_lookup (filter : envoy_listener.Filter)
    (chains : list envoy_listener.FilterChain) (i : nat)
    (chain : envoy_listener.FilterChain) :
  chains !! i = Some chain →
  ∃ chain',
    map (prependFilter filter) chains !! i = Some chain'
    ∧ envoy_listener.ChainName chain' = envoy_listener.ChainName chain
    ∧ envoy_listener.Filters chain' = filter :: envoy_listener.Filters chain.
Proof.
  intros Hi. exists (prependFilter filter chain).
  split; [|done].
  change (map ?f ?l) with (f <$> l). by rewrite list_lookup_fmap, Hi.
Qed.

(** C2.  If the RBAC filter of a listener can be built, [Configure] succeeds
    and every filter chain of the listener then starts with that filter,
    followed by the filters the chain had before, in their order; the
    listener keeps its name and the number of its chains. *)
Theorem Configure_prepends_rbac_filter
    (permissions : TrafficPermissionResourceList) (l : v2.Listener)
    (filter : envoy_listener.Filter) :
  createRbacFilter SanitizeMetric MarshalAny (v2.Name l) permissions = inr filter →
  ∃ l',
    Configure SanitizeMetric MarshalAny (NetworkRBACConfigurer permissions) l
    = (None, l')
    ∧ v2.Name l' = v2.Name l
    ∧ length (v2.FilterChains l') = length (v2.FilterChains l)
    ∧ ∀ (i : nat) chain,
        v2.FilterChains l !! i = Some chain →
        ∃ chain',
          v2.FilterChains l' !! i = Some chain'
          ∧ envoy_listener.Filters chain' = filter :: envoy_listener.Filters chain.
Proof.
  intros Hfilter. unfold Configure.
  rewrite (configureChains_ok _ _ _ _ Hfilter).
  eexists. split; [reflexivity|]. cbn.
  split; [done|]. split; [by rewrite length_map|].
  intros i chain Hi.
  destruct (prependFilter_lookup filter _ _ _ Hi) as (chain' & ? & _ & ?).
  by exists chain'.
Qed.

(** C3.  The policy of a permission has one principal per source selector,
    in the order of the selectors: the match-any principal when the
    selector's service is the wildcard, and otherwise the principal that
    matches exactly [spiffe://<mesh>/<service>] for the mesh of the
    permission; it has the single permission rule that matches anything.
    The rule of a listener holds, under each name, the policy of the
    permission of that name (of the last one, should a name repeat). *)
Theorem createPolicy_one_principal_per_source
    (listenerName : string) (permissions : TrafficPermissionResourceList)
    (permission : TrafficPermissionResource) :
  let policy := createPolicy permission in
  let mesh := GetMesh (Meta permission) in
  length (rbac_config.Principals policy) = length (Sources (Spec permission))
  ∧ (∀ (i : nat) source,
       Sources (Spec permission) !! i = Some source →
       let service := map_index (Match source) "service" in
       rbac_config.Principals policy !! i
       = Some
           (if String.eqb service "*" then
              {| rbac_config.Identifier := Some (rbac_config.Principal_Any true) |}
            else
              {| rbac_config.Identifier :=
                   Some (rbac_config.Principal_Authenticated_
                     {| rbac_config.PrincipalName :=
                          Some {| envoy_matcher.MatchPattern :=
                            Some (envoy_matcher.StringMatcher_Exact
                              ("spiffe://" +:+ mesh +:+ "/" +:+ service)) |} |}) |}))
  ∧ rbac_config.Permissions policy
    = [ {| rbac_config.Rule := Some (rbac_config.Permission_Any true) |} ]
  ∧ ∃ rules,
      rbac.Rules (createRbacRule SanitizeMetric listenerName permissions) = Some rules
      ∧ ∀ name,
          rbac_config.Policies rules !! name
          = createPolicy
              <$> last (filter (λ p, GetName (Meta p) = name) (Items permissions)).
Proof.
  cbv zeta. rewrite createPolicy_Principals.
  split; [by rewrite length_map|].
  split.
  { intros i source Hi.
    change (map ?f ?l) with (f <$> l). by rewrite list_lookup_fmap, Hi. }
  split; [done|].
  eexists. split; [reflexivity|]. intros name. cbn.
  rewrite createRbacRule_loop. by destruct (last _).
Qed.

(** C5, as amended.  The stat prefix of the rule is the sanitized listener name followed
    by a dot and by nothing else; for the listener
    [inbound:127.0.0.1:21011] and the sanitizer of the spec it is
    [inbound_127_0_0_1_21011.]. *)
Theorem createRbacRule_StatPrefix (listenerName : string)
    (permissions : TrafficPermissionResourceList) :
  rbac.StatPrefix (createRbacRule SanitizeMetric listenerName permissions)
  = SanitizeMetric listenerName +:+ "."
  ∧ rbac.StatPrefix
      (createRbacRule util_xds.SanitizeMetric "inbound:127.0.0.1:21011" permissions)
    = "inbound_127_0_0_1_21011.".
Proof. split; reflexivity. Qed.

(** C7.  With an empty list of permissions the rule has the action ALLOW and
    no policy at all; the option [NetworkRBAC] still registers the
    configurer, and [Configure] still puts the filter that carries this rule
    in front of every chain. *)
Theorem Configure_without_permissions (l : v2.Listener)
    (config : ListenerBuilderConfig) (marshalled : ptypes.Any) :
  let permissions := {| Items := [] |} in
  let rule := createRbacRule SanitizeMetric (v2.Name l) permissions in
  MarshalAny rule = inr marshalled →
  rbac.Rules rule
  = Some {| rbac_config.Action := rbac_config.RBAC_ALLOW;
            rbac_config.Policies := ∅ |}
  ∧ NetworkRBAC true permissions config
    = Add config (NetworkRBACConfigurer permissions)
  ∧ ∃ l',
      Configure SanitizeMetric MarshalAny (NetworkRBACConfigurer permissions) l
      = (None, l')
      ∧ ∀ (i : nat) chain,
          v2.FilterChains l !! i = Some chain →
          ∃ chain',
            v2.FilterChains l' !! i = Some chain'
            ∧ envoy_listener.Filters chain'
              = {| envoy_listener.Name := envoy_wellknown.RoleBasedAccessControl;
                   envoy_listener.ConfigType :=
                     Some (envoy_listener.Filter_TypedConfig marshalled) |}
                :: envoy_listener.Filters chain.
Proof.
  cbv zeta. intros Hm.
  split; [reflexivity|]. split; [reflexivity|].
  apply createRbacFilter_inr in Hm.
  unfold Configure. rewrite (configureChains_ok _ _ _ _ Hm).
  eexists. split; [reflexivity|]. cbn.
  intros i chain Hi.
  eapply prependFilter_lookup in Hi as (chain' & Hi' & _ & Hfilters).
  exists chain'. split; [exact Hi'|exact Hfilters].
Qed.

End ListenersProperties.

(** * Properties of [encoding/json] on [map[string]string] *)
Section JsonProperties.

Import json.

(** An error that was saved stays. *)
Lemma decodeFields_saved (fields : list (string * value))
    (values : gmap string string) (err : error) :
  (decodeFields fields values (Some err)).1 = Some err.
Proof.
  revert values.
  induction fields as [|[key v] fields IH]; intros values; [done|].
  destruct v; cbn; apply IH.
Qed.

(** Strings and nulls raise no error. *)
Lemma decodeFields_strings (fields : list (string * value))
    (values : gmap string string) (saved : option error) :
  Forall (λ kv, isStringOrNull kv.2 = true) fields →
  (decodeFields fields values saved).1 = saved.
Proof.
  intros Hall. revert values.
  induction Hall as [|[key v] fields Hv _ IH]; intros values; [done|].
  destruct v; try discriminate Hv; cbn; apply IH.
Qed.

(** Any other value does. *)
Lemma decodeFields_type_error (fields : list (string * value))
    (values : gmap string string) (saved : option error) :
  Exists (λ kv, isStringOrNull kv.2 = false) fields →
  ∃ err, (decodeFields fields values saved).1 = Some err.
Proof.
  intros Hex. revert values saved.
  induction Hex as [[key v] fields Hv|[key v] fields _ IH]; intros values saved.
  - destruct saved as [err|];
      destruct v; try discriminate Hv; cbn; rewrite decodeFields_saved; eauto.
  - destruct v; cbn; apply IH.
Qed.

(** A key that no field has is left as it was in the map. *)
Lemma decodeFields_absent (fields : list (string * value))
    (values : gmap string string) (saved : option error) (key : string) :
  key ∉ fields.*1 →
  (decodeFields fields values saved).2 !! key = values !! key.
Proof.
  revert values saved.
  induction fields as [|[key' v] fields IH]; intros values saved Hkey; [done|].
  cbn in Hkey. apply not_elem_of_cons in Hkey as [Hne Hkey].
  destruct v; cbn; rewrite IH by done; by rewrite lookup_insert_ne.
Qed.

(** What [decodeFields] leaves under a key: the string of the last field
    of that key, or what the map held when no field has it. *)
Lemma decodeFields_lookup (fields : list (string * value))
    (values : gmap string string) (saved : option error) (key : string) :
  (decodeFields fields values saved).2 !! key
  = match lastField key fields with
    | Some v => Some (stringOf v)
    | None => values !! key
    end.
Proof.
  revert values saved.
  induction fields as [|[key' v] fields IH]; intros values saved; [done|].
  cbn [lastField].
  assert (Hstep : ∀ saved',
    (decodeFields fields (<[ key' := stringOf v ]> values) saved').2 !! key
    = match
        match lastField key fields with
        | Some v' => Some v'
        | None => if String.eqb key' key then Some v else None
        end
      with
      | Some v0 => Some (stringOf v0)
      | None => values !! key
      end).
  { intros saved'. rewrite IH. destruct (lastField key fields); [done|].
    destruct (String.eqb_spec key' key) as [->|Hne].
    - by rewrite lookup_insert_eq.
    - by rewrite lookup_insert_ne. }
  destruct v; cbn [decodeFields stringOf] in *; apply Hstep.
Qed.

End JsonProperties.

(** * Properties of the resource web service *)

(** Unfolds the steps of a handler down to the world it returns. *)
Ltac handler_steps :=
  unfold api_server.exec, api_server.resourceStore_Get,
    api_server.resourceStore_List, api_server.resourceStore_Create,
    api_server.resourceStore_Update, api_server.resourceStore_Delete,
    api_server.response_WriteAsJson, api_server.response_WriteHeader,
    api_server.writeError, api_server.bind, api_server.ret,
    api_server.called, api_server.respond, api_server.write;
  cbn; change api_server.namespace with "default".

Section ApiServerProperties.

Import model store api_server.

Context {Spec S : Type}.
Context `{!ResourceModel Spec, !jsonpb.Unmarshaler Spec}.
Context `{!ResourceStore Spec S, !JsonWriter Spec}.

(** The envelope of a listed item, as [listResources] builds it. *)
Lemma listResources_items (meshName : string) (items : list (Resource Spec)) :
  fold_left
    (λ acc item,
       acc ++ [Build_ResourceReqResp (GetType item) (GetName (GetMeta item))
                 meshName (GetSpec item)])
    items []
  = map (λ item, Build_ResourceReqResp (GetType item) (GetName (GetMeta item))
                   meshName (GetSpec item)) items.
Proof.
  apply (fold_left_append_map
           (λ item, Build_ResourceReqResp (GetType item)
                      (GetName (GetMeta item)) meshName (GetSpec item)) _ []).
Qed.

(** C1, as amended.  [listResources] asks the store for the list of the
    namespace [default], whatever the mesh of the request, and leaves the
    backend as it is.  When the store fails it answers 500; otherwise it
    writes every resource that the store listed, each with the mesh of the
    request as its [mesh] (and answers 500 after that when the writing
    fails). *)
Theorem listResources_lists_default_namespace
    (r : ResourceWsDefinition Spec) (request : Request) (w : World Spec S) :
  let w' := exec (listResources r request) w in
  let meshName := PathParameter request "mesh" in
  calls w'
  = calls w ++ [CallList (ResourceListFactory r) (ListByNamespace "default")]
  ∧ backend w' = backend w
  ∧ match List (backend w) (ResourceListFactory r) (ListByNamespace "default") with
    | inl _ =>
        response w'
        = response w ++ [WriteErrorString 500 "Could not list a resource"]
    | inr list =>
        let specList :=
          Build_resourceSpecList
            (map (λ item, Build_ResourceReqResp (GetType item)
                            (GetName (GetMeta item)) meshName (GetSpec item))
               (GetItems list)) in
        response w'
        = response w
          ++ WriteAsJson (EntityList specList)
             :: match WriteAsJson_error (EntityList specList) with
                | Some _ => [WriteErrorString 500 "Could not list a resource"]
                | None => []
                end
    end.
Proof.
  cbv zeta. unfold listResources. handler_steps.
  destruct (List _ _ _) as [err|list]; cbn; [done|].
  rewrite listResources_items.
  destruct (WriteAsJson_error _); cbn; [|done].
  repeat split. by rewrite <- app_assoc.
Qed.

(** [deleteResource] answers 500 to every error of the store, the error of
    an absent resource included. *)
Lemma deleteResource_error (r : ResourceWsDefinition Spec) (request : Request)
    (w : World Spec S) (err : error) :
  Delete (backend w) (ResourceFactory r)
    (DeleteByName "default" (PathParameter request "name")) = inl err →
  response (exec (deleteResource r request) w)
  = response w ++ [WriteErrorString 500 "Could not delete a resource"].
Proof.
  intros Hdel. unfold deleteResource. handler_steps. by rewrite Hdel.
Qed.

(** [findResource] answers 404 to the error of an absent resource and 500
    to every other error of the store. *)
Lemma findResource_error (r : ResourceWsDefinition Spec) (request : Request)
    (w : World Spec S) (err : error) :
  let name := PathParameter request "name" in
  Get (backend w) (ResourceFactory r) (GetByName "default" name) = inl err →
  response (exec (findResource r request) w)
  = response w
    ++ [ if String.eqb err
              (ErrorResourceNotFound (GetType (ResourceFactory r)) "default" name)
         then WriteErrorString 404 ""
         else WriteErrorString 500 "Could not retrieve a resource" ].
Proof.
  cbv zeta. intros Hget. unfold findResource, isNotFound. handler_steps.
  rewrite Hget. by destruct (String.eqb _ _).
Qed.

(** When [UnmarshalJSON] fails, the envelope keeps its type, name and
    mesh. *)
Lemma UnmarshalJSON_error (r : ResourceReqResp Spec) (jsonBytes : json.value)
    (err : error) (r' : ResourceReqResp Spec) :
  UnmarshalJSON r jsonBytes = (Some err, r') →
  Type_ r' = Type_ r ∧ Name_ r' = Name_ r ∧ Mesh_ r' = Mesh_ r.
Proof.
  unfold UnmarshalJSON.
  destruct (jsonpb.Unmarshal _ _) as [[e|] spec].
  - intros Heq. by simplify_eq.
  - destruct (json.Unmarshal _ _) as [[e|] values]; intros Heq; by simplify_eq.
Qed.

(** So does it when [ReadEntity] fails: the envelope that
    [createOrUpdateResource] validates after a failed read has the empty
    type, name and mesh. *)
Lemma ReadEntity_error (request : Request) (r : ResourceReqResp Spec)
    (err : error) (r' : ResourceReqResp Spec) :
  ReadEntity request r = (Some err, r') →
  Type_ r' = Type_ r ∧ Name_ r' = Name_ r ∧ Mesh_ r' = Mesh_ r.
Proof.
  unfold ReadEntity. destruct (Body request) as [jsonBytes|].
  - apply UnmarshalJSON_error.
  - intros Heq. by simplify_eq.
Qed.

(** C8.  Whenever reading the body fails, [createOrUpdateResource] writes
    the error 400 of the read first and goes on to validate the envelope
    that the read left.  When the validation fails, its error 400 follows,
    the store is not called and the backend stays as it is.  When the
    validation passes, the handler calls [Get] and then [Create], when [Get]
    reports an absent resource, or [Update], when [Get] succeeds, with the
    spec that the read left, and answers as it does after a successful
    read; any other error of [Get] ends the request with 500. *)
Theorem createOrUpdateResource_goes_on_after_read_error
    (r : ResourceWsDefinition Spec) (request : Request) (w : World Spec S)
    (err : error) (resourceRes : ResourceReqResp Spec) :
  let name := PathParameter request "name" in
  let w' := exec (createOrUpdateResource r request) w in
  let get := CallGet (ResourceFactory r) (GetByName "default" name) in
  let failedRead := WriteErrorString 400 "Could not process the resource" in
  ReadEntity request
    (Build_ResourceReqResp "" "" "" (GetSpec (ResourceFactory r)))
  = (Some err, resourceRes) →
  match validateResourceRequest r request resourceRes with
  | Some invalid =>
      response w' = response w ++ [failedRead; WriteErrorString 400 invalid]
      ∧ calls w' = calls w
      ∧ backend w' = backend w
  | None =>
      match Get (backend w) (ResourceFactory r) (GetByName "default" name) with
      | inr resource =>
          let updated := (SetSpec resource (Spec_ resourceRes)).2 in
          calls w' = calls w ++ [get; CallUpdate updated]
          ∧ match Update (backend w) updated with
            | inr s =>
                backend w' = s
                ∧ response w' = response w ++ [failedRead; WriteHeader 200]
            | inl _ =>
                backend w' = backend w
                ∧ response w'
                  = response w
                    ++ [failedRead;
                        WriteErrorString 500 "Could not update a resource"]
            end
      | inl e =>
          if String.eqb e
               (ErrorResourceNotFound (GetType (ResourceFactory r)) "default" name)
          then
            let created :=
              (SetSpec (ResourceFactory r) (Spec_ resourceRes)).2 in
            let opts := CreateByName "default" name in
            calls w' = calls w ++ [get; CallCreate created opts]
            ∧ match Create (backend w) created opts with
              | inr s =>
                  backend w' = s
                  ∧ response w' = response w ++ [failedRead; WriteHeader 201]
              | inl _ =>
                  backend w' = backend w
                  ∧ response w'
                    = response w
                      ++ [failedRead;
                          WriteErrorString 500 "Could not create a resource"]
              end
          else
            calls w' = calls w ++ [get]
            ∧ backend w' = backend w
            ∧ response w'
              = response w
                ++ [failedRead;
                    WriteErrorString 500 "Could not create a resource"]
      end
  end.
Proof.
  cbv zeta. intros Hread.
  unfold createOrUpdateResource. rewrite Hread.
  unfold isNotFound, createResource, updateResource. handler_steps.
  destruct (validateResourceRequest _ _ _) as [invalid|]; cbn.
  { by rewrite <- app_assoc. }
  destruct (Get _ _ _) as [e|resource]; cbn.
  - destruct (String.eqb e _); cbn; [|by rewrite <- !app_assoc].
    destruct (SetSpec _ _) as [seterr res]; cbn.
    destruct (Create _ _ _); cbn; by rewrite <- !app_assoc.
  - destruct (SetSpec _ _) as [seterr res]; cbn.
    destruct (Update _ _); cbn; by rewrite <- !app_assoc.
Qed.

(** C9, as amended.  For a body that is a JSON object and whose spec was
    read without an error: [UnmarshalJSON] returns an error as soon as one
    top-level field has a value that is neither a JSON string nor [null];
    when every top-level value is a string or [null] it returns no error
    and keeps the spec that was read, and each of the type, the name and
    the mesh is the string of the last field of that name, the empty string
    when that field is [null], and the empty string when the body has no
    such field. *)
Theorem UnmarshalJSON_envelope (r : ResourceReqResp Spec)
    (fields : list (string * json.value)) (spec : Spec) :
  jsonpb.Unmarshal (json.JObject fields) (Spec_ r) = (None, spec) →
  (Exists (λ kv, json.isStringOrNull kv.2 = false) fields →
     ∃ err, (UnmarshalJSON r (json.JObject fields)).1 = Some err)
  ∧ (Forall (λ kv, json.isStringOrNull kv.2 = true) fields →
     ∃ r',
       UnmarshalJSON r (json.JObject fields) = (None, r')
       ∧ Spec_ r' = spec
       ∧ ("type" ∉ fields.*1 → Type_ r' = "")
       ∧ ("name" ∉ fields.*1 → Name_ r' = "")
       ∧ ("mesh" ∉ fields.*1 → Mesh_ r' = "")
       ∧ Type_ r'
         = match json.lastField "type" fields with
           | Some (json.JString s) => s
           | Some _ => ""
           | None => ""
           end
       ∧ Name_ r'
         = match json.lastField "name" fields with
           | Some (json.JString s) => s
           | Some _ => ""
           | None => ""
           end
       ∧ Mesh_ r'
         = match json.lastField "mesh" fields with
           | Some (json.JString s) => s
           | Some _ => ""
           | None => ""
           end).
Proof.
  intros Hspec. unfold UnmarshalJSON. rewrite Hspec. cbn [json.Unmarshal].
  split.
  - intros Hex.
    destruct (decodeFields_type_error fields ∅ None Hex) as [err Herr].
    destruct (json.decodeFields fields ∅ None) as [saved values].
    cbn in Herr. subst saved. by exists err.
  - intros Hall.
    pose proof (decodeFields_strings fields ∅ None Hall) as Hnone.
    pose proof (decodeFields_absent fields ∅ None) as Habsent.
    pose proof (decodeFields_lookup fields ∅ None) as Hlast.
    destruct (json.decodeFields fields ∅ None) as [saved values].
    cbn in Hnone, Habsent, Hlast. subst saved.
    eexists. split; [reflexivity|]. cbn.
    split; [done|].
    unfold map_index.
    split; [intros Hkey; by rewrite (Habsent _ Hkey), lookup_empty|].
    split; [intros Hkey; by rewrite (Habsent _ Hkey), lookup_empty|].
    split; [intros Hkey; by rewrite (Habsent _ Hkey), lookup_empty|].
    rewrite !Hlast.
    repeat split;
      match goal with
      | |- context [json.lastField ?key fields] =>
          destruct (json.lastField key fields) as [[]|]
      end; done.
Qed.

(** C10.  [createResource] and [updateResource] call the store with the
    resource as [SetSpec] left it, whether [SetSpec] returned an error or
    not, and their answer depends on the result of the store alone: 201 or
    200 when the store accepts, and otherwise the 500 of a failed [Create]
    or [Update]. *)
Theorem SetSpec_error_is_discarded (r : ResourceWsDefinition Spec)
    (name : string) (resource : Resource Spec) (spec : Spec)
    (w : World Spec S) :
  let created := (SetSpec (ResourceFactory r) spec).2 in
  let updated := (SetSpec resource spec).2 in
  let wc := exec (createResource r name spec) w in
  let wu := exec (updateResource resource spec) w in
  calls wc = calls w ++ [CallCreate created (CreateByName "default" name)]
  ∧ response wc
    = response w
      ++ [ match Create (backend w) created (CreateByName "default" name) with
           | inl _ => WriteErrorString 500 "Could not create a resource"
           | inr _ => WriteHeader 201
           end ]
  ∧ calls wu = calls w ++ [CallUpdate updated]
  ∧ response wu
    = response w
      ++ [ match Update (backend w) updated with
           | inl _ => WriteErrorString 500 "Could not update a resource"
           | inr _ => WriteHeader 200
           end ].
Proof.
  cbv zeta. unfold createResource, updateResource.
  destruct (SetSpec (ResourceFactory r) spec) as [cerr created].
  destruct (SetSpec resource spec) as [uerr updated].
  handler_steps.
  destruct (Create _ _ _), (Update _ _); done.
Qed.

End ApiServerProperties.

(** * The sample deployment *)
Section Samples.

Import model store api_server memory samples listeners.

(** The RBAC filter of the listener [inbound] under the sample marshaller. *)
Lemma createRbacFilter_inbound
    (permissions : mesh_core.TrafficPermissionResourceList) :
  createRbacFilter util_xds.SanitizeMetric sample_MarshalAny (v2.Name inbound)
    permissions
  = inr {| envoy_listener.Name := "envoy.filters.network.rbac";
           envoy_listener.ConfigType :=
             Some (envoy_listener.Filter_TypedConfig
               {| ptypes.TypeUrl :=
                    "type.googleapis.com/envoy.config.filter.network.rbac.v2.RBAC";
                  ptypes.Value :=
                    list_byte_of_string "inbound_127_0_0_1_21011." |}) |}.
Proof. reflexivity. Qed.

(** C1, the claim as stated fails.  A traffic route is created through
    [PUT /meshes/B/traffic-routes/r1]; the list of mesh [A] then returns
    it, as a resource of mesh [A]. *)
Lemma listResources_of_mesh_A_returns_resource_of_mesh_B :
  let w1 := exec (createOrUpdateResource trafficRouteWs putR1InMeshB) emptyWorld in
  let w2 := exec (listResources trafficRouteWs listMeshA)
              (Build_World (backend w1) [] []) in
  response w1 = [WriteHeader 201]
  ∧ response w2
    = [ WriteAsJson
          (EntityList
             (Build_resourceSpecList
                [ Build_ResourceReqResp "TrafficRoute" "r1" "A"
                    (TrafficRoute "/api") ])) ].
Proof. split; vm_compute; reflexivity. Qed.

(** C2 on the listener [inbound], whose chains hold two and one filter. *)
Lemma Configure_prepends_rbac_filter_on_inbound :
  let permissions := {| mesh_core.Items := [allowAll] |} in
  let filter :=
    {| envoy_listener.Name := "envoy.filters.network.rbac";
       envoy_listener.ConfigType :=
         Some (envoy_listener.Filter_TypedConfig
           {| ptypes.TypeUrl :=
                "type.googleapis.com/envoy.config.filter.network.rbac.v2.RBAC";
              ptypes.Value := list_byte_of_string "inbound_127_0_0_1_21011." |}) |} in
  createRbacFilter util_xds.SanitizeMetric sample_MarshalAny (v2.Name inbound)
    permissions = inr filter
  ∧ ∃ l',
      Configure util_xds.SanitizeMetric sample_MarshalAny
        (NetworkRBACConfigurer permissions) inbound = (None, l')
      ∧ v2.Name l' = v2.Name inbound
      ∧ length (v2.FilterChains l') = length (v2.FilterChains inbound)
      ∧ ∀ (i : nat) chain,
          v2.FilterChains inbound !! i = Some chain →
          ∃ chain',
            v2.FilterChains l' !! i = Some chain'
            ∧ envoy_listener.Filters chain' = filter :: envoy_listener.Filters chain.
Proof.
  split.
  - apply createRbacFilter_inbound.
  - apply (Configure_prepends_rbac_filter util_xds.SanitizeMetric
             sample_MarshalAny {| mesh_core.Items := [allowAll] |} inbound).
    apply createRbacFilter_inbound.
Defined.

(** C5, the claim as stated fails: the stat prefix of the scenario's
    listener is not [inbound_127_0_0_1_21011rbac.], and no sanitizer that
    replaces characters one for one makes it so: the prefix is one
    character longer than the name, and that text is five longer. *)
Lemma createRbacRule_StatPrefix_has_no_rbac :
  rbac.StatPrefix
    (createRbacRule util_xds.SanitizeMetric "inbound:127.0.0.1:21011"
       {| mesh_core.Items := [allowAll] |})
  ≠ "inbound_127_0_0_1_21011rbac."
  ∧ ¬ ∃ sanitize : string → string,
        (∀ s, String.length (sanitize s) = String.length s)
        ∧ rbac.StatPrefix
            (createRbacRule sanitize "inbound:127.0.0.1:21011"
               {| mesh_core.Items := [allowAll] |})
          = "inbound_127_0_0_1_21011rbac.".
Proof.
  split.
  - intros Heq. vm_compute in Heq. discriminate Heq.
  - intros (sanitize & Hlen & Heq).
    apply (f_equal String.length) in Heq.
    cbn [rbac.StatPrefix createRbacRule] in Heq.
    rewrite string_length_append, Hlen in Heq.
    vm_compute in Heq. discriminate Heq.
Qed.

(** C6.  On the in-memory store, [Delete] reports an absent resource with
    the error [NotFound]; [deleteResource] answers 500 where [findResource],
    for the same resource and the same error of [Get], answers 404. *)
Theorem deleteResource_absent_answers_500 :
  Delete (backend emptyWorld) (ResourceFactory trafficRouteWs)
    (DeleteByName "default" "absent")
  = inl (ErrorResourceNotFound "TrafficRoute" "default" "absent")
  ∧ response (exec (deleteResource trafficRouteWs absentInDefault) emptyWorld)
    = [WriteErrorString 500 "Could not delete a resource"]
  ∧ Get (backend emptyWorld) (ResourceFactory trafficRouteWs)
      (GetByName "default" "absent")
    = inl (ErrorResourceNotFound "TrafficRoute" "default" "absent")
  ∧ response (exec (findResource trafficRouteWs absentInDefault) emptyWorld)
    = [WriteErrorString 404 ""].
Proof. repeat split; vm_compute; reflexivity. Qed.

(** C7 on the listener [inbound]. *)
Lemma Configure_without_permissions_on_inbound :
  let marshalled :=
    {| ptypes.TypeUrl :=
         "type.googleapis.com/envoy.config.filter.network.rbac.v2.RBAC";
       ptypes.Value := list_byte_of_string "inbound_127_0_0_1_21011." |} in
  let rule := createRbacRule util_xds.SanitizeMetric (v2.Name inbound) noPermissions in
  sample_MarshalAny rule = inr marshalled
  ∧ rbac.Rules rule
    = Some {| rbac_config.Action := rbac_config.RBAC_ALLOW;
              rbac_config.Policies := ∅ |}
  ∧ NetworkRBAC true noPermissions {| Configurers := [] |}
    = Add {| Configurers := [] |} (NetworkRBACConfigurer noPermissions)
  ∧ ∃ l',
      Configure util_xds.SanitizeMetric sample_MarshalAny
        (NetworkRBACConfigurer noPermissions) inbound = (None, l')
      ∧ ∀ (i : nat) chain,
          v2.FilterChains inbound !! i = Some chain →
          ∃ chain',
            v2.FilterChains l' !! i = Some chain'
            ∧ envoy_listener.Filters chain'
              = {| envoy_listener.Name := envoy_wellknown.RoleBasedAccessControl;
                   envoy_listener.ConfigType :=
                     Some (envoy_listener.Filter_TypedConfig marshalled) |}
                :: envoy_listener.Filters chain.
Proof.
  split; [reflexivity|].
  apply (Configure_without_permissions util_xds.SanitizeMetric sample_MarshalAny
           inbound {| Configurers := [] |}).
  reflexivity.
Defined.

(** C8 on two requests.  The body of the first has an array among its
    fields, as the body of a structured resource has: the read fails on it,
    the name of the envelope stays empty, and the answer is the 400 of the
    read followed by the 400 of the name.  The second has a body that is
    not JSON, no path parameters, and meets a definition with the empty
    type name: the validation passes, and the resource is created after the
    400 of the read. *)
Lemma createOrUpdateResource_goes_on_after_garbage :
  (let init :=
     Build_ResourceReqResp "" "" "" (GetSpec (ResourceFactory trafficRouteWs)) in
   let w' :=
     exec (createOrUpdateResource trafficRouteWs samples_ws.putR1WithArray) emptyWorld in
   ReadEntity samples_ws.putR1WithArray init
   = (Some "json: cannot unmarshal array into Go value of type string", init)
   ∧ response w'
     = [ WriteErrorString 400 "Could not process the resource";
         WriteErrorString 400 "Name from the URL has to be the same as in body" ]
   ∧ calls w' = []
   ∧ backend w' = [])
  ∧ (let init :=
       Build_ResourceReqResp "" "" "" (GetSpec (ResourceFactory untypedWs)) in
     let w' := exec (createOrUpdateResource untypedWs putGarbage) emptyWorld in
     ReadEntity putGarbage init
     = (Some "invalid character looking for beginning of value", init)
     ∧ calls w'
       = [ CallGet (ResourceFactory untypedWs) (GetByName "default" "");
           CallCreate (ResourceFactory untypedWs) (CreateByName "default" "") ]
     ∧ backend w'
       = [ {| GetType := "";
              GetMeta := {| GetName := ""; GetNamespace := "default";
                            GetVersion := 1%nat |};
              GetSpec := TrafficRoute "" |} ]
     ∧ response w'
       = [ WriteErrorString 400 "Could not process the resource";
           WriteHeader 201 ]).
Proof.
  split.
  - split; [reflexivity|].
    exact (createOrUpdateResource_goes_on_after_read_error trafficRouteWs
             samples_ws.putR1WithArray emptyWorld
             "json: cannot unmarshal array into Go value of type string" _
             eq_refl).
  - split; [reflexivity|].
    exact (createOrUpdateResource_goes_on_after_read_error untypedWs putGarbage
             emptyWorld "invalid character looking for beginning of value" _
             eq_refl).
Defined.

(** C9, the claim as stated fails.  The field [path] of this body is
    [null], which is not a JSON string, and [UnmarshalJSON] returns no
    error. *)
Lemma UnmarshalJSON_accepts_null :
  UnmarshalJSON (Build_ResourceReqResp "" "" "" (TrafficRoute ""))
    (json.JObject
       [ ("type", json.JString "TrafficRoute");
         ("name", json.JString "r1");
         ("mesh", json.JString "default");
         ("path", json.JNull) ])
  = (None, Build_ResourceReqResp "TrafficRoute" "r1" "default" (TrafficRoute "")).
Proof. vm_compute. reflexivity. Qed.

(** C9, as amended, on a body for a traffic route whose mesh is [null] and
    that has no type: both are read as the empty string. *)
Lemma UnmarshalJSON_envelope_on_traffic_route :
  let r := Build_ResourceReqResp "" "" "" (TrafficRoute "") in
  let fields :=
    [ ("name", json.JString "r1");
      ("mesh", json.JNull);
      ("path", json.JString "/api") ] in
  jsonpb.Unmarshal (json.JObject fields) (Spec_ r) = (None, TrafficRoute "/api")
  ∧ Forall (λ kv, json.isStringOrNull kv.2 = true) fields
  ∧ UnmarshalJSON r (json.JObject fields)
    = (None, Build_ResourceReqResp "" "r1" "" (TrafficRoute "/api"))
  ∧ ((Exists (λ kv, json.isStringOrNull kv.2 = false) fields →
        ∃ err, (UnmarshalJSON r (json.JObject fields)).1 = Some err)
     ∧ (Forall (λ kv, json.isStringOrNull kv.2 = true) fields →
        ∃ r',
          UnmarshalJSON r (json.JObject fields) = (None, r')
          ∧ Spec_ r' = TrafficRoute "/api"
          ∧ ("type" ∉ fields.*1 → Type_ r' = "")
          ∧ ("name" ∉ fields.*1 → Name_ r' = "")
          ∧ ("mesh" ∉ fields.*1 → Mesh_ r' = "")
          ∧ Type_ r' = ""
          ∧ Name_ r' = "r1"
          ∧ Mesh_ r' = "")).
Proof.
  split; [reflexivity|]. split; [repeat constructor|]. split; [reflexivity|].
  apply (UnmarshalJSON_envelope
           (Build_ResourceReqResp "" "" "" (TrafficRoute ""))
           [ ("name", json.JString "r1");
             ("mesh", json.JNull);
             ("path", json.JString "/api") ]).
  reflexivity.
Defined.

(** C9 on the kind of body the claim gives as its example: with an array
    among the top-level fields, [UnmarshalJSON] returns the type error of
    the second decoding, and the envelope stays empty. *)
Example UnmarshalJSON_rejects_array :
  UnmarshalJSON (Build_ResourceReqResp "" "" "" (ProxyTemplate []))
    (json.JObject
       [ ("type", json.JString "ProxyTemplate");
         ("name", json.JString "p1");
         ("mesh", json.JString "default");
         ("imports", json.JArray [json.JString "base"]) ])
  = (Some "json: cannot unmarshal array into Go value of type string",
     Build_ResourceReqResp "" "" "" (ProxyTemplate [])).
Proof. vm_compute. reflexivity. Qed.

(** C10 on the sample model: the spec of a proxy template does not fit a
    traffic route, [SetSpec] says so, and the answer is 201. *)
Example createResource_mismatched_spec_answers_201 :
  (SetSpec (ResourceFactory trafficRouteWs) (ProxyTemplate ["base"])).1
  = Some "invalid type of spec"
  ∧ response
      (exec (createResource trafficRouteWs "r1" (ProxyTemplate ["base"])) emptyWorld)
    = [WriteHeader 201].
Proof. split; vm_compute; reflexivity. Qed.

End Samples.

(** * More about the network RBAC configurer *)
Section ListenersMore.

Import v1alpha1 mesh_core listeners.

Variable SanitizeMetric : string → string.
Variable MarshalAny : rbac.RBAC → error + ptypes.Any.

(** The policy map after the loop of [createRbacRule], as the map of the
    pairs of a name and a policy, the later pairs first. *)
Lemma createRbacRule_loop_list_to_map (items : list TrafficPermissionResource) :
  fold_left
    (λ (policies : gmap string rbac_config.Policy) permission,
       <[ GetName (Meta permission) := createPolicy permission ]> policies)
    items ∅
  = list_to_map
      (rev (map (λ p, (GetName (Meta p), createPolicy p)) items)).
Proof.
  induction items as [|permission items IH] using rev_ind; [done|].
  rewrite fold_left_app, map_app, rev_app_distr. cbn [fold_left map rev app].
  by rewrite IH.
Qed.

Lemma size_list_to_set_le (l : list string) :
  (size (list_to_set (C := gset string) l) ≤ length l)%nat.
Proof.
  induction l as [|x l IH]; cbn [length].
  - by rewrite list_to_set_nil, size_empty.
  - rewrite list_to_set_cons, size_union_alt, size_singleton.
    assert (Hle : (size (list_to_set (C := gset string) l ∖ {[x]})
                   ≤ size (list_to_set (C := gset string) l))%nat).
    { apply subseteq_size. apply subseteq_difference_l. reflexivity. }
    lia.
Qed.

(** X1.  [Configure] is all or nothing.  When the filter can be built it is
    put in front of every chain and nothing else changes; when it cannot,
    the listener is returned exactly as it was, and the error is reported
    unless the listener has no chain at all. *)
Theorem Configure_all_or_nothing
    (permissions : TrafficPermissionResourceList) (l : v2.Listener) :
  match createRbacFilter SanitizeMetric MarshalAny (v2.Name l) permissions with
  | inr filter =>
      Configure SanitizeMetric MarshalAny (NetworkRBACConfigurer permissions) l
      = (None,
         {| v2.Name := v2.Name l;
            v2.Address := v2.Address l;
            v2.FilterChains := map (prependFilter filter) (v2.FilterChains l) |})
  | inl err =>
      Configure SanitizeMetric MarshalAny (NetworkRBACConfigurer permissions) l
      = (match v2.FilterChains l with [] => None | _ => Some err end, l)
  end.
Proof.
  destruct (createRbacFilter _ _ _ _) as [err|filter] eqn:Hfilter;
    unfold Configure.
  - rewrite (configureChains_error _ _ _ _ _ _ Hfilter). by destruct l.
  - by rewrite (configureChains_ok _ _ _ _ _ _ Hfilter).
Qed.

(** X2.  [Configure] is not idempotent: run twice on a listener, it leaves
    two copies of the RBAC filter in front of the filters that every chain
    had. *)
Theorem Configure_twice_stacks_two_filters
    (permissions : TrafficPermissionResourceList) (l : v2.Listener)
    (filter : envoy_listener.Filter) :
  createRbacFilter SanitizeMetric MarshalAny (v2.Name l) permissions = inr filter →
  let c := NetworkRBACConfigurer permissions in
  ∃ l'',
    Configure SanitizeMetric MarshalAny c
      (Configure SanitizeMetric MarshalAny c l).2 = (None, l'')
    ∧ ∀ (i : nat) chain,
        v2.FilterChains l !! i = Some chain →
        ∃ chain'',
          v2.FilterChains l'' !! i = Some chain''
          ∧ envoy_listener.Filters chain''
            = filter :: filter :: envoy_listener.Filters chain.
Proof.
  cbv zeta. intros Hfilter. unfold Configure.
  rewrite (configureChains_ok _ _ _ _ _ _ Hfilter). cbn.
  rewrite (configureChains_ok _ _ _ _ _ _ Hfilter).
  eexists. split; [reflexivity|]. cbn.
  intros i chain Hi.
  exists (prependFilter filter (prependFilter filter chain)).
  split; [|done].
  change (map ?f ?l) with (f <$> l). by rewrite !list_lookup_fmap, Hi.
Qed.

(** X3.  The policies of a rule are keyed by exactly the names of the
    permissions.  There are at most as many policies as permissions, and as
    many when no two permissions share a name: a permission whose name is
    taken by a later one leaves no policy of its own. *)
Theorem createRbacRule_policy_names (listenerName : string)
    (permissions : TrafficPermissionResourceList) :
  let names := map (λ p, GetName (Meta p)) (Items permissions) in
  ∃ rules,
    rbac.Rules (createRbacRule SanitizeMetric listenerName permissions) = Some rules
    ∧ dom (rbac_config.Policies rules) = list_to_set names
    ∧ (size (rbac_config.Policies rules) ≤ length (Items permissions))%nat
    ∧ (NoDup names →
       size (rbac_config.Policies rules) = length (Items permissions)).
Proof.
  cbv zeta. eexists. split; [reflexivity|]. cbn.
  rewrite createRbacRule_loop_list_to_map.
  set (pairs := map (λ p, (GetName (Meta p), createPolicy p)) (Items permissions)).
  assert (Hnames : (rev pairs).*1
                   = rev (map (λ p, GetName (Meta p)) (Items permissions))).
  { change (rev pairs).*1 with (map fst (rev pairs)).
    rewrite map_rev. unfold pairs. by rewrite map_map. }
  assert (Hdom : dom (list_to_map (M := gmap string rbac_config.Policy) (rev pairs))
                 = list_to_set (map (λ p, GetName (Meta p)) (Items permissions))).
  { rewrite dom_list_to_map_L, Hnames. apply set_eq. intros x.
    rewrite !elem_of_list_to_set, !list_elem_of_In. symmetry. apply in_rev. }
  split; [exact Hdom|].
  rewrite <- (size_dom (D := gset string)), Hdom.
  split.
  - etrans; [apply size_list_to_set_le|]. by rewrite length_map.
  - intros Hnodup. rewrite size_list_to_set by done. by rewrite length_map.
Qed.

(** X4.  When no two permissions share a name, the rule does not depend on
    the order in which the permissions are listed. *)
Theorem createRbacRule_order_of_permissions (listenerName : string)
    (items items' : list TrafficPermissionResource) :
  NoDup (map (λ p, GetName (Meta p)) items) →
  items ≡ₚ items' →
  createRbacRule SanitizeMetric listenerName {| Items := items |}
  = createRbacRule SanitizeMetric listenerName {| Items := items' |}.
Proof.
  intros Hnodup Hperm. unfold createRbacRule. cbn [Items].
  rewrite !createRbacRule_loop_list_to_map.
  do 3 f_equal.
  apply list_to_map_proper.
  - change (?l.*1) with (map fst l). rewrite map_rev, map_map. cbn.
    by rewrite <- Permutation_rev.
  - by rewrite <- !Permutation_rev, Hperm.
Qed.

(** X5.  A policy depends on the mesh of the permission and on the services
    of its sources, and on nothing else: the name and the version of the
    permission, its destinations and the other tags of its sources do not
    reach the policy. *)
Theorem createPolicy_reads_mesh_and_services (permission : TrafficPermissionResource) :
  createPolicy permission
  = createPolicy
      {| Meta := {| GetName := ""; GetMesh := GetMesh (Meta permission);
                    GetVersion := "" |};
         Spec :=
           {| Sources :=
                map (λ source,
                       {| Match := {[ "service" := map_index (Match source) "service" ]} |})
                  (Sources (Spec permission));
              Destinations := [] |} |}.
Proof.
  unfold createPolicy. f_equal. cbn [Spec Sources].
  rewrite !(fold_left_append_map (createPrincipal _) _ []). cbn [app].
  rewrite map_map. apply map_ext. intros source.
  unfold createPrincipal, map_index. cbn. by rewrite lookup_singleton_eq.
Qed.

Lemma string_append_assoc (s1 s2 s3 : string) :
  (s1 +:+ s2) +:+ s3 = s1 +:+ s2 +:+ s3.
Proof.
  induction s1 as [|c s1 IH]; [done|].
  change (String c ((s1 +:+ s2) +:+ s3) = String c (s1 +:+ s2 +:+ s3)).
  by rewrite IH.
Qed.

(** A service name with a slash in it is never the wildcard. *)
Lemma slash_is_not_wildcard (s t : string) :
  String.eqb (s +:+ "/" +:+ t) "*" = false.
Proof.
  apply String.eqb_neq. intros Heq. destruct s as [|c s].
  - change (String "/" t = String "*" "") in Heq. discriminate Heq.
  - apply (f_equal String.length) in Heq.
    rewrite !string_length_append in Heq. cbn in Heq. lia.
Qed.

(** X6.  The identity [spiffe://<mesh>/<service>] does not tell the mesh
    from the service when they hold a slash: the service [t] of the mesh
    [m/s] and the service [s/t] of the mesh [m] get the same principal. *)
Theorem createPrincipal_slash_collision
    (p1 p2 : TrafficPermissionResource) (source1 source2 : Selector)
    (m s t : string) :
  t ≠ "*" →
  GetMesh (Meta p1) = m +:+ "/" +:+ s →
  map_index (Match source1) "service" = t →
  GetMesh (Meta p2) = m →
  map_index (Match source2) "service" = s +:+ "/" +:+ t →
  createPrincipal p1 source1 = createPrincipal p2 source2.
Proof.
  intros Ht Hm1 Hs1 Hm2 Hs2. unfold createPrincipal.
  change MatchAllTag with "*".
  rewrite Hm1, Hs1, Hm2, Hs2, slash_is_not_wildcard.
  apply String.eqb_neq in Ht. rewrite Ht.
  do 5 f_equal.
  by rewrite !string_append_assoc.
Qed.

End ListenersMore.

(** * More about [encoding/json] *)
Section JsonMore.

Import json.

(** The same for [decodeMembers], whose values went through an
    [interface{}]. *)
Lemma decodeMembers_lookup (convert : value → error + value)
    (fields : list (string * value)) (data : gmap string value)
    (saved : option error) (key : string) :
  (decodeMembers convert fields data saved).2 !! key
  = match lastField key fields with
    | Some v =>
        Some match viaInterface convert v with inr v' => v' | inl _ => JNull end
    | None => data !! key
    end.
Proof.
  revert data saved.
  induction fields as [|[key' v] fields IH]; intros data saved; [done|].
  cbn [lastField decodeMembers].
  destruct (viaInterface convert v) as [err|v'] eqn:Hv; rewrite IH;
    (destruct (lastField key fields); [done|]);
    (destruct (String.eqb_spec key' key) as [->|Hne];
     [by rewrite lookup_insert_eq, Hv | by rewrite lookup_insert_ne]).
Qed.

Lemma decodeMembers_saved (convert : value → error + value)
    (fields : list (string * value)) (data : gmap string value) (err : error) :
  (decodeMembers convert fields data (Some err)).1 = Some err.
Proof.
  revert data.
  induction fields as [|[key v] fields IH]; intros data; [done|].
  cbn [decodeMembers]. destruct (viaInterface convert v); apply IH.
Qed.

(** [decodeMembers] raises an error exactly when a member does. *)
Lemma decodeMembers_error (convert : value → error + value)
    (fields : list (string * value)) (data : gmap string value) :
  (decodeMembers convert fields data None).1 = None
  ↔ Forall (λ kv, ∃ v', viaInterface convert kv.2 = inr v') fields.
Proof.
  revert data.
  induction fields as [|[key v] fields IH]; intros data.
  - split; [constructor|done].
  - cbn [decodeMembers].
    destruct (viaInterface convert v) as [err|v'] eqn:Hv.
    + cbn [saveError]. rewrite decodeMembers_saved. split; [done|].
      intros Hall. apply Forall_cons in Hall as [[v' Hv'] _].
      cbn in Hv'. congruence.
    + rewrite IH. split.
      * intros Hall. constructor; [by exists v'|done].
      * intros Hall. by apply Forall_cons in Hall as [_ Hall].
Qed.

(** A key that no field has. *)
Lemma lastField_None (fields : list (string * value)) (key : string) :
  key ∉ fields.*1 → lastField key fields = None.
Proof.
  induction fields as [|[key' v] fields IH]; intros Hkey; [done|].
  cbn in Hkey. apply not_elem_of_cons in Hkey as [Hne Hkey].
  cbn [lastField]. rewrite IH by done.
  destruct (String.eqb_spec key' key); [congruence|done].
Qed.

(** When no key repeats, the last field of a key is the member of the
    object. *)
Lemma lastField_list_to_map (fields : list (string * value)) (key : string) :
  NoDup fields.*1 →
  lastField key fields = (list_to_map fields : gmap string value) !! key.
Proof.
  induction fields as [|[key' v] fields IH]; intros Hnodup; [done|].
  cbn in Hnodup. apply NoDup_cons in Hnodup as [Hkey' Hnodup].
  cbn [lastField list_to_map foldr]. cbn.
  destruct (String.eqb_spec key' key) as [->|Hne].
  - by rewrite lookup_insert_eq, lastField_None.
  - rewrite lookup_insert_ne by done. rewrite IH by done.
    by destruct (_ !! key).
Qed.

End JsonMore.

(** * More about the resource web service *)
Section ApiServerMore.

Import model store api_server.

Context {Spec S : Type}.
Context `{!ResourceModel Spec, !jsonpb.Unmarshaler Spec}.
Context `{!ResourceStore Spec S, !JsonWriter Spec}.

(** The validation passes exactly when the envelope repeats the name and
    the mesh of the URL and the type of the definition. *)
Lemma validateResourceRequest_None (r : ResourceWsDefinition Spec)
    (request : Request) (resourceReq : ResourceReqResp Spec) :
  validateResourceRequest r request resourceReq = None
  ↔ PathParameter request "name" = Name_ resourceReq
    ∧ GetType (ResourceFactory r) = Type_ resourceReq
    ∧ PathParameter request "mesh" = Mesh_ resourceReq.
Proof.
  unfold validateResourceRequest.
  destruct (String.eqb_spec (PathParameter request "name") (Name_ resourceReq));
    cbn; [|split; [done|tauto]].
  destruct (String.eqb_spec (GetType (ResourceFactory r)) (Type_ resourceReq));
    cbn; [|split; [done|tauto]].
  destruct (String.eqb_spec (PathParameter request "mesh") (Mesh_ resourceReq));
    cbn; [done|split; [done|tauto]].
Qed.

(** The store call of [findResource] and of [listResources]. *)
Lemma findResource_store_call
    (r : ResourceWsDefinition Spec) (request : Request) (w : World Spec S) :
  let w' := exec (findResource r request) w in
  calls w'
  = calls w
    ++ [CallGet (ResourceFactory r)
          (GetByName "default" (PathParameter request "name"))]
  ∧ backend w' = backend w.
Proof.
  cbv zeta. unfold findResource, isNotFound. handler_steps.
  destruct (Get _ _ _) as [err|resource]; [|done].
  by destruct (String.eqb _ _).
Qed.

Lemma listResources_store_call
    (r : ResourceWsDefinition Spec) (request : Request) (w : World Spec S) :
  let w' := exec (listResources r request) w in
  calls w'
  = calls w ++ [CallList (ResourceListFactory r) (ListByNamespace "default")]
  ∧ backend w' = backend w.
Proof.
  cbv zeta. unfold listResources. handler_steps.
  destruct (List _ _ _) as [err|list]; cbn; [done|].
  by destruct (WriteAsJson_error _).
Qed.

(** X7.  [findResource] makes the one call [Get] for the name of the URL in
    the namespace [default] and leaves the backend as it is.  It answers
    404 when the error of the store reads as that of an absent resource and
    500 for any other error; a resource that is found is written with its
    own type and spec, under the name and the mesh of the URL, and nothing
    follows when the writing fails. *)
Theorem findResource_answers
    (r : ResourceWsDefinition Spec) (request : Request) (w : World Spec S) :
  let w' := exec (findResource r request) w in
  let name := PathParameter request "name" in
  calls w' = calls w ++ [CallGet (ResourceFactory r) (GetByName "default" name)]
  ∧ backend w' = backend w
  ∧ response w'
    = response w
      ++ [ match Get (backend w) (ResourceFactory r) (GetByName "default" name) with
           | inl err =>
               if String.eqb err
                    (ErrorResourceNotFound (GetType (ResourceFactory r))
                       "default" name)
               then WriteErrorString 404 ""
               else WriteErrorString 500 "Could not retrieve a resource"
           | inr resource =>
               WriteAsJson
                 (EntityResource
                    (Build_ResourceReqResp (GetType resource) name
                       (PathParameter request "mesh") (GetSpec resource)))
           end ].
Proof.
  cbv zeta. unfold findResource, isNotFound. handler_steps.
  destruct (Get _ _ _) as [err|resource]; [|done].
  by destruct (String.eqb _ _).
Qed.

(** [deleteResource] makes the one call [Delete] for the name of the URL in
    the namespace [default].  When the store accepts, the backend moves on
    and nothing at all is written to the response; otherwise the answer is
    500. *)
Lemma deleteResource_answers
    (r : ResourceWsDefinition Spec) (request : Request) (w : World Spec S) :
  let w' := exec (deleteResource r request) w in
  let opts := DeleteByName "default" (PathParameter request "name") in
  calls w' = calls w ++ [CallDelete (ResourceFactory r) opts]
  ∧ match Delete (backend w) (ResourceFactory r) opts with
    | inr s => backend w' = s ∧ response w' = response w
    | inl _ =>
        backend w' = backend w
        ∧ response w'
          = response w ++ [WriteErrorString 500 "Could not delete a resource"]
    end.
Proof.
  cbv zeta. unfold deleteResource. handler_steps.
  by destruct (Delete _ _ _).
Qed.

(** X9.  Whatever the request, [createOrUpdateResource] calls the store in
    one of four ways: not at all, [Get] alone, [Get] then [Create], or [Get]
    then [Update], always for the name of the URL in the namespace
    [default]; and it writes one or two calls to the response. *)
Theorem createOrUpdateResource_store_calls
    (r : ResourceWsDefinition Spec) (request : Request) (w : World Spec S) :
  let w' := exec (createOrUpdateResource r request) w in
  let name := PathParameter request "name" in
  let get := CallGet (ResourceFactory r) (GetByName "default" name) in
  (∃ made,
     calls w' = calls w ++ made
     ∧ (made = []
        ∨ made = [get]
        ∨ (∃ res, made = [get; CallCreate res (CreateByName "default" name)])
        ∨ (∃ res, made = [get; CallUpdate res])))
  ∧ (length (response w) < length (response w')
     ≤ length (response w) + 2)%nat.
Proof.
  cbv zeta. unfold createOrUpdateResource.
  destruct (ReadEntity _ _) as [[err|] resourceRes];
    destruct (validateResourceRequest _ _ _) as [verr|];
    unfold isNotFound, createResource, updateResource; handler_steps.
  all: try (split; [exists []; split; [by rewrite app_nil_r|by left]
                   | rewrite ?length_app; cbn; lia]).
  all: destruct (Get _ _ _) as [e|resource]; cbn;
    [ destruct (String.eqb e _); cbn;
      [ destruct (SetSpec _ _) as [seterr res]; cbn;
        destruct (Create _ _ _); cbn
      | ]
    | destruct (SetSpec _ _) as [seterr res]; cbn;
      destruct (Update _ _); cbn ].
  all: rewrite <- ?app_assoc; cbn [app].
  all: split; [eexists; split; [reflexivity|] | rewrite ?length_app; cbn; lia].
  all: eauto 6.
Qed.

(** X10.  When the envelope read from the body does not repeat the name and
    the mesh of the URL and the type of the definition,
    [createOrUpdateResource] does not call the store, leaves the backend as
    it is, and its last word to the response is an error 400. *)
Theorem createOrUpdateResource_mismatch
    (r : ResourceWsDefinition Spec) (request : Request) (w : World Spec S) :
  let resourceRes :=
    (ReadEntity request
       (Build_ResourceReqResp "" "" "" (GetSpec (ResourceFactory r)))).2 in
  let w' := exec (createOrUpdateResource r request) w in
  ¬ (PathParameter request "name" = Name_ resourceRes
     ∧ GetType (ResourceFactory r) = Type_ resourceRes
     ∧ PathParameter request "mesh" = Mesh_ resourceRes) →
  calls w' = calls w
  ∧ backend w' = backend w
  ∧ ∃ msg, last (response w') = Some (WriteErrorString 400 msg).
Proof.
  cbv zeta. intros Hmismatch. rewrite <- validateResourceRequest_None in Hmismatch.
  unfold createOrUpdateResource.
  destruct (ReadEntity _ _) as [[err|] resourceRes]; cbn [snd] in Hmismatch;
    (destruct (validateResourceRequest _ _ _) as [verr|]; [|done]);
    handler_steps; (split; [done|]); (split; [done|]);
    exists verr; by rewrite ?last_snoc.
Qed.

(** X11.  After a body that was read without an error and an envelope that
    passes the validation: when [Get] finds the resource, it is updated
    with the spec of the body and the answer is 200; when [Get] reports an
    absent resource, one is created under the name of the URL and the
    answer is 201; an error of [Create] or [Update], or another error of
    [Get], is answered with 500 and leaves the backend as it is. *)
Theorem createOrUpdateResource_after_valid_read
    (r : ResourceWsDefinition Spec) (request : Request) (w : World Spec S)
    (resourceRes : ResourceReqResp Spec) :
  let name := PathParameter request "name" in
  let w' := exec (createOrUpdateResource r request) w in
  let get := CallGet (ResourceFactory r) (GetByName "default" name) in
  ReadEntity request
    (Build_ResourceReqResp "" "" "" (GetSpec (ResourceFactory r)))
  = (None, resourceRes) →
  validateResourceRequest r request resourceRes = None →
  match Get (backend w) (ResourceFactory r) (GetByName "default" name) with
  | inr resource =>
      let updated := (SetSpec resource (Spec_ resourceRes)).2 in
      calls w' = calls w ++ [get; CallUpdate updated]
      ∧ match Update (backend w) updated with
        | inr s =>
            backend w' = s ∧ response w' = response w ++ [WriteHeader 200]
        | inl _ =>
            backend w' = backend w
            ∧ response w'
              = response w
                ++ [WriteErrorString 500 "Could not update a resource"]
        end
  | inl e =>
      if String.eqb e
           (ErrorResourceNotFound (GetType (ResourceFactory r)) "default" name)
      then
        let created := (SetSpec (ResourceFactory r) (Spec_ resourceRes)).2 in
        let opts := CreateByName "default" name in
        calls w' = calls w ++ [get; CallCreate created opts]
        ∧ match Create (backend w) created opts with
          | inr s =>
              backend w' = s ∧ response w' = response w ++ [WriteHeader 201]
          | inl _ =>
              backend w' = backend w
              ∧ response w'
                = response w
                  ++ [WriteErrorString 500 "Could not create a resource"]
          end
      else
        calls w' = calls w ++ [get]
        ∧ backend w' = backend w
        ∧ response w'
          = response w ++ [WriteErrorString 500 "Could not create a resource"]
  end.
Proof.
  cbv zeta. intros Hread Hvalid.
  unfold createOrUpdateResource. rewrite Hread.
  unfold isNotFound, createResource, updateResource. handler_steps.
  rewrite Hvalid. cbn.
  destruct (Get _ _ _) as [e|resource]; cbn.
  - destruct (String.eqb e _); cbn; [|done].
    destruct (SetSpec _ _) as [seterr res]; cbn.
    destruct (Create _ _ _); cbn; by rewrite <- app_assoc.
  - destruct (SetSpec _ _) as [seterr res]; cbn.
    destruct (Update _ _); cbn; by rewrite <- app_assoc.
Qed.

(** X12.  A body that cannot be read is harmless for every request with a
    name in its URL: the store is not called, the backend stays as it is,
    and the response receives the error 400 of the failed read followed by
    the error 400 of the name. *)
Theorem createOrUpdateResource_read_error
    (r : ResourceWsDefinition Spec) (request : Request) (w : World Spec S)
    (err : error) (resourceRes : ResourceReqResp Spec) :
  let w' := exec (createOrUpdateResource r request) w in
  ReadEntity request
    (Build_ResourceReqResp "" "" "" (GetSpec (ResourceFactory r)))
  = (Some err, resourceRes) →
  PathParameter request "name" ≠ "" →
  calls w' = calls w
  ∧ backend w' = backend w
  ∧ response w'
    = response w
      ++ [ WriteErrorString 400 "Could not process the resource";
           WriteErrorString 400 "Name from the URL has to be the same as in body" ].
Proof.
  cbv zeta. intros Hread Hname.
  destruct (ReadEntity_error _ _ _ _ Hread) as (_ & Hname' & _). cbn in Hname'.
  unfold createOrUpdateResource. rewrite Hread.
  unfold validateResourceRequest. rewrite Hname'.
  apply String.eqb_neq in Hname. rewrite Hname.
  handler_steps. by rewrite <- app_assoc.
Qed.

(** X13.  A read-only web service has only [GET] routes, and serving any
    of them makes one call on the store, a [Get] or a [List], and leaves
    the backend as it is. *)
Theorem NewWs_read_only (r : resourceWs Spec) (route : Route)
    (request : Request) (w : World Spec S) :
  readOnly r = true →
  In route (Routes (NewWs r)) →
  let w' := exec (routeFunction r (To route) request) w in
  Method route = GET
  ∧ backend w' = backend w
  ∧ ∃ c, calls w' = calls w ++ [c] ∧ isRead c = true.
Proof.
  cbv zeta. intros Hro Hroute. unfold NewWs in Hroute. rewrite Hro in Hroute.
  cbn in Hroute. destruct Hroute as [<-|[<-|[]]]; cbn.
  - destruct (findResource_store_call (definition r) request w) as (Hc & Hb).
    split; [done|]. split; [done|]. eexists. split; [exact Hc|done].
  - destruct (listResources_store_call (definition r) request w) as (Hc & Hb).
    split; [done|]. split; [done|]. eexists. split; [exact Hc|done].
Qed.

(** X8.  The mesh of the URL does not reach the store.  Two requests for
    the same name, in whatever meshes and with whatever else in them, make
    the same calls on the store and leave the same backend when they are
    served by [findResource], [listResources] or [deleteResource]; served
    by [deleteResource] they also get the same answer, so that a [DELETE]
    in one mesh removes the resource of that name for every mesh. *)
Theorem mesh_does_not_reach_the_store (r : resourceWs Spec) (to : RouteFunction)
    (request1 request2 : Request) (w : World Spec S) :
  to ≠ To_createOrUpdateResource →
  PathParameter request1 "name" = PathParameter request2 "name" →
  let w1 := exec (routeFunction r to request1) w in
  let w2 := exec (routeFunction r to request2) w in
  calls w1 = calls w2
  ∧ backend w1 = backend w2
  ∧ (to = To_deleteResource → response w1 = response w2).
Proof.
  cbv zeta. intros Hto Hname. destruct to; cbn [routeFunction]; [| |done|].
  - destruct (findResource_store_call (definition r) request1 w) as [-> ->].
    destruct (findResource_store_call (definition r) request2 w) as [-> ->].
    by rewrite Hname.
  - destruct (listResources_store_call (definition r) request1 w) as [-> ->].
    destruct (listResources_store_call (definition r) request2 w) as [-> ->].
    done.
  - destruct (deleteResource_answers (definition r) request1 w) as [-> H1].
    destruct (deleteResource_answers (definition r) request2 w) as [-> H2].
    rewrite Hname in H1 |- *.
    destruct (Delete _ _ _); destruct H1 as [-> ->], H2 as [-> ->]; done.
Qed.

End ApiServerMore.

(** * The envelope, written and read *)
Section EnvelopeProperties.

Import model store api_server json.

(** Writing a string that is valid UTF-8 as a JSON string keeps it. *)
Lemma coerceFrom_validFrom (s : string) (skip : nat) :
  validFrom skip s = true → coerceFrom skip s = s.
Proof.
  revert skip. induction s as [|b rest IH]; intros skip; [done|].
  cbn [validFrom coerceFrom].
  destruct skip as [|skip'].
  - destruct (runeSize (String b rest)) as [|skip']; [done|].
    intros Hvalid. by rewrite (IH _ Hvalid).
  - intros Hvalid. by rewrite (IH _ Hvalid).
Qed.

Lemma toValidUTF8_ValidString (s : string) :
  ValidString s = true → toValidUTF8 s = s.
Proof. apply coerceFrom_validFrom. Qed.

Context {Spec : Type}.
Context `{!jsonpb.Unmarshaler Spec, !jsonpb.Marshaler Spec}.

Variable convert : value → error + value.

Lemma forallb_isStringOrNull (fields : list (string * value)) :
  if forallb (λ kv, isStringOrNull kv.2) fields
  then Forall (λ kv, isStringOrNull kv.2 = true) fields
  else Exists (λ kv, isStringOrNull kv.2 = false) fields.
Proof.
  induction fields as [|[key v] fields IH]; cbn [forallb snd]; [constructor|].
  destruct (isStringOrNull v) eqn:Hv; cbn [andb].
  - destruct (forallb _ fields); [by constructor|by apply Exists_cons_tl].
  - by apply Exists_cons_hd.
Qed.

(** What [UnmarshalJSON] reads from an object of strings and nulls. *)
Lemma UnmarshalJSON_strings (r : ResourceReqResp Spec)
    (fields : list (string * value)) (spec : Spec) :
  jsonpb.Unmarshal (JObject fields) (Spec_ r) = (None, spec) →
  Forall (λ kv, isStringOrNull kv.2 = true) fields →
  UnmarshalJSON r (JObject fields)
  = (None,
     Build_ResourceReqResp
       (default "" (stringOf <$> lastField "type" fields))
       (default "" (stringOf <$> lastField "name" fields))
       (default "" (stringOf <$> lastField "mesh" fields)) spec).
Proof.
  intros Hspec Hall. unfold UnmarshalJSON. rewrite Hspec. cbn [Unmarshal].
  pose proof (decodeFields_strings fields ∅ None Hall) as Hnone.
  pose proof (decodeFields_lookup fields ∅ None) as Hlookup.
  destruct (decodeFields fields ∅ None) as [saved values].
  cbn in Hnone, Hlookup. subst saved. unfold map_index.
  rewrite !Hlookup.
  by destruct (lastField "type" fields), (lastField "name" fields),
       (lastField "mesh" fields).
Qed.

(** X14.  What [UnmarshalJSON] returns for a body whose spec was read
    without an error.  From an object whose top-level values are all strings
    or [null], the envelope takes the last field named [type], [name] and
    [mesh], a [null] or a missing field giving the empty string.  An object
    with any other top-level value is an error.  The body [null] is read as
    the empty envelope, without an error; every other body is a type error.
    After an error the envelope keeps its type, name and mesh and holds the
    spec that was read. *)
Theorem UnmarshalJSON_result (r : ResourceReqResp Spec) (body : value)
    (spec : Spec) :
  jsonpb.Unmarshal body (Spec_ r) = (None, spec) →
  let kept := Build_ResourceReqResp (Type_ r) (Name_ r) (Mesh_ r) spec in
  match body with
  | JObject fields =>
      if forallb (λ kv, isStringOrNull kv.2) fields then
        UnmarshalJSON r body
        = (None,
           Build_ResourceReqResp
             (default "" (stringOf <$> lastField "type" fields))
             (default "" (stringOf <$> lastField "name" fields))
             (default "" (stringOf <$> lastField "mesh" fields)) spec)
      else ∃ err, UnmarshalJSON r body = (Some err, kept)
  | JNull => UnmarshalJSON r body = (None, Build_ResourceReqResp "" "" "" spec)
  | _ =>
      UnmarshalJSON r body
      = (Some (UnmarshalTypeError (kind body) "map[string]string"), kept)
  end.
Proof.
  intros Hspec. cbv zeta.
  destruct body as [| | | | |fields];
    try (unfold UnmarshalJSON; rewrite Hspec; reflexivity).
  pose proof (forallb_isStringOrNull fields) as Hfields.
  destruct (forallb _ fields).
  - by apply UnmarshalJSON_strings.
  - unfold UnmarshalJSON. rewrite Hspec. cbn [Unmarshal].
    destruct (decodeFields_type_error fields ∅ None Hfields) as [err Herr].
    destruct (decodeFields fields ∅ None) as [saved values].
    cbn in Herr. subst saved. by exists err.
Qed.

(** The members of the map that [MarshalJSON] hands to [json.Marshal]. *)
Lemma MarshalJSON_inr (r : ResourceReqResp Spec) (data : gmap string value) :
  MarshalJSON convert r = inr data →
  ∃ specJson specData,
    jsonpb.Marshal (Spec_ r) = inr specJson
    ∧ UnmarshalGeneric convert specJson ∅ = (None, specData)
    ∧ data
      = <[ "mesh" := JString (toValidUTF8 (Mesh_ r)) ]>
          (<[ "name" := JString (toValidUTF8 (Name_ r)) ]>
             (<[ "type" := JString (toValidUTF8 (Type_ r)) ]> specData)).
Proof.
  unfold MarshalJSON.
  destruct (jsonpb.Marshal (Spec_ r)) as [err|specJson]; [done|].
  destruct (UnmarshalGeneric convert specJson ∅) as [[err|] specData] eqn:Hu;
    [done|].
  unfold metaJson. cbn [UnmarshalGeneric decodeMembers viaInterface].
  intros Heq. simplify_eq. by exists specJson, specData.
Qed.

(** A member of what [MarshalJSON] writes that is not of the envelope. *)
Lemma MarshalJSON_spec_member (r : ResourceReqResp Spec)
    (fields : list (string * value)) (data : gmap string value) (key : string) :
  MarshalJSON convert r = inr data →
  jsonpb.Marshal (Spec_ r) = inr (JObject fields) →
  key ≠ "type" → key ≠ "name" → key ≠ "mesh" →
  match lastField key fields with
  | Some v => ∃ v', viaInterface convert v = inr v' ∧ data !! key = Some v'
  | None => data !! key = None
  end.
Proof.
  intros Hdata Hm Htype Hname Hmesh.
  destruct (MarshalJSON_inr r data Hdata) as (specJson & specData & Hm' & Hu & ->).
  rewrite Hm in Hm'. simplify_eq. cbn in Hu.
  rewrite !lookup_insert_ne by done.
  pose proof (decodeMembers_lookup convert fields ∅ None key) as Hlookup.
  pose proof (proj1 (decodeMembers_error convert fields ∅)) as Hall.
  rewrite Hu in Hlookup, Hall. cbn in Hlookup, Hall.
  specialize (Hall eq_refl). rewrite Hlookup.
  destruct (lastField key fields) as [v|] eqn:Hlast; [|done].
  destruct (viaInterface convert v) as [err|v'] eqn:Hv; [|by exists v'].
  exfalso. clear Hlookup Hu Hm Hdata.
  induction fields as [|[key' v0] fields IH]; [done|].
  apply Forall_cons in Hall as [[v' Hv'] Hall]. cbn in Hv'.
  cbn [lastField] in Hlast.
  destruct (lastField key fields) as [v1|]; [by apply IH|].
  destruct (String.eqb key' key); [|done].
  simplify_eq. congruence.
Qed.

(** X15.  In what [MarshalJSON] writes, the members [type], [name] and
    [mesh] are those of the envelope, made valid UTF-8 (a byte that begins
    no valid encoding becomes U+FFFD), also when the spec has a field of
    one of these names.  Every other member is the last field of that name
    in the JSON of the spec, and there is none when the spec has no such
    field or is written as [null]. *)
Theorem MarshalJSON_members (r : ResourceReqResp Spec)
    (data : gmap string value) :
  MarshalJSON convert r = inr data →
  data !! "type" = Some (JString (toValidUTF8 (Type_ r)))
  ∧ data !! "name" = Some (JString (toValidUTF8 (Name_ r)))
  ∧ data !! "mesh" = Some (JString (toValidUTF8 (Mesh_ r)))
  ∧ ∀ key, key ≠ "type" → key ≠ "name" → key ≠ "mesh" →
      match jsonpb.Marshal (Spec_ r) with
      | inr (JObject fields) =>
          match lastField key fields with
          | Some v => ∃ v', viaInterface convert v = inr v' ∧ data !! key = Some v'
          | None => data !! key = None
          end
      | _ => data !! key = None
      end.
Proof.
  intros Hdata.
  destruct (MarshalJSON_inr r data Hdata) as (specJson & specData & Hm & Hu & ->).
  split; [by rewrite lookup_insert_ne, lookup_insert_ne, lookup_insert_eq|].
  split; [by rewrite lookup_insert_ne, lookup_insert_eq|].
  split; [by rewrite lookup_insert_eq|].
  intros key Htype Hname Hmesh. rewrite Hm.
  destruct specJson as [| | | | |fields];
    try (cbn in Hu; simplify_eq; by rewrite !lookup_insert_ne).
  exact (MarshalJSON_spec_member r fields _ key Hdata Hm Htype Hname Hmesh).
Qed.

(** Every member of what [MarshalJSON] writes is a string or [null] when
    every field of the spec is. *)
Lemma MarshalJSON_strings (r : ResourceReqResp Spec)
    (specFields : list (string * value)) (data : gmap string value)
    (key : string) (v : value) :
  jsonpb.Marshal (Spec_ r) = inr (JObject specFields) →
  Forall (λ kv, isStringOrNull kv.2 = true) specFields →
  MarshalJSON convert r = inr data →
  data !! key = Some v →
  isStringOrNull v = true.
Proof.
  intros Hm Hall Hdata Hkey.
  destruct (MarshalJSON_inr r data Hdata) as (specJson & specData & Hm' & Hu & ->).
  rewrite Hm in Hm'. simplify_eq. cbn in Hu.
  destruct (decide (key = "mesh")) as [->|Hmesh];
    [rewrite lookup_insert_eq in Hkey; by simplify_eq|].
  rewrite lookup_insert_ne in Hkey by done.
  destruct (decide (key = "name")) as [->|Hname];
    [rewrite lookup_insert_eq in Hkey; by simplify_eq|].
  rewrite lookup_insert_ne in Hkey by done.
  destruct (decide (key = "type")) as [->|Htype];
    [rewrite lookup_insert_eq in Hkey; by simplify_eq|].
  rewrite lookup_insert_ne in Hkey by done.
  pose proof (decodeMembers_lookup convert specFields ∅ None key) as Hlookup.
  rewrite Hu in Hlookup. cbn in Hlookup. rewrite Hkey in Hlookup.
  clear Hu Hm Hdata Hkey.
  induction Hall as [|[key' v0] fields Hv0 Hall IH]; [done|].
  cbn [lastField] in Hlookup.
  destruct (lastField key fields) as [v1|]; [by apply IH|].
  destruct (String.eqb key' key); [|done].
  cbn in Hv0. destruct v0; try discriminate Hv0; cbn in Hlookup; by simplify_eq.
Qed.

(** X16.  The envelope comes back from what [MarshalJSON] wrote when every
    field of the spec is a string or [null].  For any object that holds the
    members written, each once and in any order, and from which the spec
    can be read, [UnmarshalJSON] returns the type, the name and the mesh
    that [MarshalJSON] was given, made valid UTF-8: with U+FFFD for every
    byte that begins no valid encoding, and as they were when the three are
    valid UTF-8. *)
Theorem MarshalJSON_UnmarshalJSON (r r0 : ResourceReqResp Spec)
    (specFields fields : list (string * value)) (data : gmap string value)
    (spec : Spec) :
  jsonpb.Marshal (Spec_ r) = inr (JObject specFields) →
  Forall (λ kv, isStringOrNull kv.2 = true) specFields →
  MarshalJSON convert r = inr data →
  NoDup fields.*1 →
  list_to_map fields = data →
  jsonpb.Unmarshal (JObject fields) (Spec_ r0) = (None, spec) →
  UnmarshalJSON r0 (JObject fields)
  = (None,
     Build_ResourceReqResp (toValidUTF8 (Type_ r)) (toValidUTF8 (Name_ r))
       (toValidUTF8 (Mesh_ r)) spec)
  ∧ (ValidString (Type_ r) = true →
     ValidString (Name_ r) = true →
     ValidString (Mesh_ r) = true →
     UnmarshalJSON r0 (JObject fields)
     = (None, Build_ResourceReqResp (Type_ r) (Name_ r) (Mesh_ r) spec)).
Proof.
  intros Hm Hall Hdata Hnodup Hfields Hspec.
  assert (Hback :
    UnmarshalJSON r0 (JObject fields)
    = (None,
       Build_ResourceReqResp (toValidUTF8 (Type_ r)) (toValidUTF8 (Name_ r))
         (toValidUTF8 (Mesh_ r)) spec));
    [|split; [exact Hback|];
      intros Htype Hname Hmesh; rewrite Hback;
      by rewrite !toValidUTF8_ValidString].
  rewrite (UnmarshalJSON_strings r0 fields spec Hspec).
  - rewrite !lastField_list_to_map by done. rewrite Hfields.
    destruct (MarshalJSON_inr r data Hdata) as (? & specData & _ & _ & ->).
    rewrite (lookup_insert_ne _ "mesh" "type"), (lookup_insert_ne _ "name" "type"),
      (lookup_insert_ne _ "mesh" "name"), !lookup_insert_eq by done.
    done.
  - apply Forall_forall. intros [key v] Hin. cbn.
    apply (MarshalJSON_strings r specFields data key v Hm Hall Hdata).
    rewrite <- Hfields. by apply elem_of_list_to_map.
Qed.

(** X17.  The envelope does not come back when the spec has a field, not
    named [type], [name] or [mesh], whose JSON is not a string or [null]:
    whatever object holds the members that [MarshalJSON] wrote,
    [UnmarshalJSON] answers it with an error.  (Going through an
    [interface{}] keeps the kind of a JSON value.) *)
Theorem MarshalJSON_refused_by_UnmarshalJSON (r r0 : ResourceReqResp Spec)
    (specFields fields : list (string * value)) (data : gmap string value)
    (key : string) (v : value) :
  (∀ v v', convert v = inr v' → kind v' = kind v) →
  jsonpb.Marshal (Spec_ r) = inr (JObject specFields) →
  lastField key specFields = Some v →
  isStringOrNull v = false →
  key ≠ "type" → key ≠ "name" → key ≠ "mesh" →
  MarshalJSON convert r = inr data →
  NoDup fields.*1 →
  list_to_map fields = data →
  ∃ err, (UnmarshalJSON r0 (JObject fields)).1 = Some err.
Proof.
  intros Hkind Hm Hlast Hv Htype Hname Hmesh Hdata Hnodup Hfields.
  pose proof (MarshalJSON_spec_member r specFields data key Hdata Hm
                Htype Hname Hmesh) as Hother.
  rewrite Hlast in Hother. destruct Hother as (v' & Hv' & Hkey).
  assert (Hbad : isStringOrNull v' = false).
  { destruct v; try discriminate Hv; cbn in Hv'; try (by simplify_eq);
      apply Hkind in Hv'; by destruct v'. }
  assert (Hex : Exists (λ kv, isStringOrNull kv.2 = false) fields).
  { apply Exists_exists. exists (key, v'). split; [|done].
    apply elem_of_list_to_map; [done|]. by rewrite Hfields. }
  unfold UnmarshalJSON.
  destruct (jsonpb.Unmarshal _ _) as [[err|] spec]; [by exists err|].
  cbn [Unmarshal].
  destruct (decodeFields_type_error fields ∅ None Hex) as [err Herr].
  destruct (decodeFields fields ∅ None) as [saved values].
  cbn in Herr. subst saved. by exists err.
Qed.

End EnvelopeProperties.

(** * The index endpoint *)
Section IndexProperties.

Import index_ws.

Variable Product : string.
Variable BuildVersion : string.
Variable Env : Type.
Variable getInstanceId : Env → string.
Variable getClusterId : Env → string.

Lemma firstKnown_cons (id : string) (ids : list string) :
  firstKnown (id :: ids) = if String.eqb id "" then firstKnown ids else id.
Proof.
  unfold firstKnown. rewrite filter_cons.
  destruct (String.eqb_spec id "") as [->|Hne].
  - by rewrite decide_False by (intros Hne; by apply Hne).
  - by rewrite decide_True.
Qed.

Lemma firstKnown_two (id id' : string) :
  firstKnown [id; id'] = if String.eqb id "" then id' else id.
Proof.
  rewrite !firstKnown_cons.
  destruct (String.eqb id ""); [|done].
  by destruct (String.eqb_spec id' "").
Qed.

Lemma firstKnown_step (id id' : string) (ids : list string) :
  firstKnown ((if String.eqb id "" then id' else id) :: ids)
  = firstKnown (id :: id' :: ids).
Proof.
  rewrite (firstKnown_cons id). destruct (String.eqb_spec id "") as [->|Hne].
  - done.
  - rewrite firstKnown_cons. by rewrite (proj2 (String.eqb_neq _ _) Hne).
Qed.

(** One request: an identifier that is known is kept and its function is
    not called; one that is not is asked for. *)
Lemma serveIndex_step (env : Env) (st st' : IndexEndpoint)
    (resp : IndexResponse) (made : list GetterCall) :
  serveIndex Product BuildVersion Env getInstanceId getClusterId env st
  = (st', resp, made) →
  hostname st' = hostname st
  ∧ instanceId st' = firstKnown [instanceId st; getInstanceId env]
  ∧ clusterId st' = firstKnown [clusterId st; getClusterId env]
  ∧ Hostname resp = hostname st
  ∧ InstanceId resp = instanceId st'
  ∧ ClusterId resp = clusterId st'
  ∧ (CallGetInstanceId ∈ made ↔ instanceId st = "")
  ∧ (CallGetClusterId ∈ made ↔ clusterId st = "").
Proof.
  unfold serveIndex. rewrite !firstKnown_two.
  destruct (String.eqb_spec (instanceId st) "") as [Hi|Hi];
    destruct (String.eqb_spec (clusterId st) "") as [Hc|Hc];
    intros Heq; simplify_eq; cbn;
    repeat split; try done;
    rewrite ?elem_of_cons, ?elem_of_nil; intuition (done || discriminate).
Qed.

(** X18.  Over any run of requests, the index endpoint reports the host
    name it was added with and, as instance and cluster identifier, the
    first value that was not empty among those its functions returned up to
    that request: once known, an identifier is never replaced.  A request
    calls [getInstanceId] (or [getClusterId]) exactly when no earlier
    request obtained an identifier. *)
Theorem serveAll_first_known (envs : list Env) (st : IndexEndpoint) (i : nat)
    (resp : IndexResponse) (made : list GetterCall) :
  serveAll Product BuildVersion Env getInstanceId getClusterId envs st !! i
  = Some (resp, made) →
  Hostname resp = hostname st
  ∧ InstanceId resp
    = firstKnown (instanceId st :: map getInstanceId (take (S i) envs))
  ∧ ClusterId resp
    = firstKnown (clusterId st :: map getClusterId (take (S i) envs))
  ∧ (CallGetInstanceId ∈ made
     ↔ firstKnown (instanceId st :: map getInstanceId (take i envs)) = "")
  ∧ (CallGetClusterId ∈ made
     ↔ firstKnown (clusterId st :: map getClusterId (take i envs)) = "").
Proof.
  revert st i.
  induction envs as [|env envs IH]; intros st i Hi; [done|].
  cbn [serveAll] in Hi.
  destruct (serveIndex _ _ _ _ _ env st) as [[st' resp'] made'] eqn:Hserve.
  apply serveIndex_step in Hserve
    as (Hhost & Hinst & Hclus & Hhost' & Hinst' & Hclus' & Hci & Hcc).
  rewrite firstKnown_two in Hinst, Hclus.
  destruct i as [|i].
  - cbn in Hi. simplify_eq. cbn [take map]. rewrite !take_0. cbn [map].
    rewrite <- !firstKnown_step, <- Hinst, <- Hclus.
    rewrite !firstKnown_cons, Hci, Hcc.
    change (firstKnown []) with "".
    assert (Hif : ∀ id : string, (if String.eqb id "" then "" else id) = id)
      by (intros id; by destruct (String.eqb_spec id "")).
    by rewrite !Hif.
  - cbn in Hi. apply IH in Hi as (H1 & H2 & H3 & H4 & H5).
    cbn [take map].
    rewrite <- !firstKnown_step, <- Hinst, <- Hclus.
    by rewrite H1, H2, H3, H4, H5, Hhost.
Qed.

End IndexProperties.

(** * The order of the policy map in the marshalled filter *)
Section MarshalOrder.

Import v1alpha1 mesh_core listeners proto.

Variable SanitizeMetric : string → string.

(** Two visits of one map hold the same keys. *)
Lemma visits_Permutation {A : Type} (order1 order2 : MapOrder)
    (m : gmap string A) :
  visits order1 m → visits order2 m → order1 ≡ₚ order2.
Proof.
  intros [Hnodup1 Hdom1] [Hnodup2 Hdom2].
  apply NoDup_Permutation; [done..|].
  intros key.
  rewrite <- (elem_of_list_to_set (C := gset string) key order1).
  rewrite <- (elem_of_list_to_set (C := gset string) key order2).
  by rewrite Hdom1, Hdom2.
Qed.

Lemma visits_length {A : Type} (order : MapOrder) (m : gmap string A) :
  visits order m → length order = size m.
Proof.
  intros [Hnodup Hdom].
  rewrite <- (size_dom m), <- Hdom. symmetry. by apply size_list_to_set.
Qed.

(** A visit writes the entries of the map and nothing else. *)
Lemma visits_entries {A : Type} (order : MapOrder) (m : gmap string A)
    (key : string) (x : A) :
  visits order m → (key, x) ∈ entriesIn order m ↔ m !! key = Some x.
Proof.
  intros [Hnodup Hdom]. unfold entriesIn. rewrite list_elem_of_omap. split.
  - intros (key' & _ & Hkey).
    destruct (m !! key') as [y|] eqn:Hy; [|done].
    cbn in Hkey. by simplify_eq.
  - intros Hkey. exists key. split; [|by rewrite Hkey].
    apply (elem_of_list_to_set (C := gset string)). rewrite Hdom.
    by apply elem_of_dom.
Qed.

(** The keys of the entries written are the visit itself. *)
Lemma visits_keys {A : Type} (order : MapOrder) (m : gmap string A) :
  visits order m → (entriesIn order m).*1 = order.
Proof.
  intros [_ Hdom].
  assert (Hkeys : ∀ key, key ∈ order → is_Some (m !! key)).
  { intros key Hkey. apply elem_of_dom. rewrite <- Hdom.
    by apply elem_of_list_to_set. }
  clear Hdom. unfold entriesIn.
  induction order as [|key order IH]; [done|].
  destruct (Hkeys key) as [x Hx]; [by left|].
  cbn. rewrite Hx. cbn. f_equal.
  apply IH. intros key' Hkey'. apply Hkeys. by right.
Qed.

(** A map of at most one entry has one visit. *)
Lemma visits_small {A : Type} (order1 order2 : MapOrder) (m : gmap string A) :
  (size m ≤ 1)%nat → visits order1 m → visits order2 m → order1 = order2.
Proof.
  intros Hsize Hvisits1 Hvisits2.
  pose proof (visits_Permutation _ _ _ Hvisits1 Hvisits2) as Hperm.
  pose proof (visits_length _ _ Hvisits1) as Hlength.
  destruct order1 as [|key1 [|key1' order1]]; cbn in Hlength.
  - by apply Permutation_nil_l in Hperm.
  - by apply Permutation_singleton_l in Hperm.
  - lia.
Qed.

(** C4, as amended.  Two runs of [createRbacFilter] on the same listener
    name and the same permissions, whose marshallers range over the policy
    map in the orders [order1] and [order2], write the same action and the
    same stat prefix, and each writes exactly the entries of the policy map,
    so the entries of one run are those of the other in a possibly different
    order.  When the map has at most one policy, the two filters, and the
    listeners that [Configure] returns, are equal.  When the encoding tells
    the two messages written apart, the two filters are equal exactly when
    the two orders are. *)
Theorem createRbacFilter_up_to_map_order
    (encode : RBACWire → error + ptypes.Any) (listenerName : string)
    (permissions : TrafficPermissionResourceList) (order1 order2 : MapOrder) :
  let rule := createRbacRule SanitizeMetric listenerName permissions in
  let policies := policiesOf rule in
  visits order1 policies →
  visits order2 policies →
  (∃ entries1 entries2,
     WireRules (wireOf order1 rule) = Some (rbac_config.RBAC_ALLOW, entries1)
     ∧ WireRules (wireOf order2 rule) = Some (rbac_config.RBAC_ALLOW, entries2)
     ∧ entries1 ≡ₚ entries2
     ∧ (∀ name policy,
          (name, policy) ∈ entries1 ↔ policies !! name = Some policy))
  ∧ WireStatPrefix (wireOf order1 rule) = WireStatPrefix (wireOf order2 rule)
  ∧ ((size policies ≤ 1)%nat →
     createRbacFilter SanitizeMetric (MarshalAnyIn encode order1)
       listenerName permissions
     = createRbacFilter SanitizeMetric (MarshalAnyIn encode order2)
         listenerName permissions
     ∧ ∀ l : v2.Listener,
         Configure SanitizeMetric (MarshalAnyIn encode order1)
           (NetworkRBACConfigurer permissions) l
         = Configure SanitizeMetric (MarshalAnyIn encode order2)
             (NetworkRBACConfigurer permissions) l)
  ∧ ((encode (wireOf order1 rule) = encode (wireOf order2 rule) →
      wireOf order1 rule = wireOf order2 rule) →
     createRbacFilter SanitizeMetric (MarshalAnyIn encode order1)
       listenerName permissions
     = createRbacFilter SanitizeMetric (MarshalAnyIn encode order2)
         listenerName permissions
     ↔ order1 = order2).
Proof.
  cbv zeta. intros Hvisits1 Hvisits2. split; [|split; [|split]].
  - eexists _, _. split; [reflexivity|]. split; [reflexivity|]. split.
    + unfold entriesIn. apply omap_Permutation.
      exact (visits_Permutation _ _ _ Hvisits1 Hvisits2).
    + intros name policy. exact (visits_entries _ _ _ _ Hvisits1).
  - reflexivity.
  - intros Hsize.
    by rewrite (visits_small _ _ _ Hsize Hvisits1 Hvisits2).
  - intros Hapart. split; [|by intros ->].
    intros Hsame.
    rewrite <- (visits_keys _ _ Hvisits1), <- (visits_keys _ _ Hvisits2).
    unfold createRbacFilter, MarshalAnyIn in Hsame.
    assert (Hwire :
      wireOf order1 (createRbacRule SanitizeMetric listenerName permissions)
      = wireOf order2 (createRbacRule SanitizeMetric listenerName permissions)).
    { apply Hapart.
      destruct (encode (wireOf order1 _)) as [err1|any1];
        destruct (encode (wireOf order2 _)) as [err2|any2];
        by simplify_eq. }
    unfold wireOf in Hwire. cbn in Hwire. injection Hwire as Hentries.
    unfold policiesOf, createRbacRule. cbn. by rewrite Hentries.
Qed.

End MarshalOrder.

(** * More of the sample deployment *)
Section MoreSamples.

Import model store api_server memory samples samples_ws listeners.

(** X2 on the listener [inbound]. *)
Lemma Configure_twice_on_inbound :
  let permissions := {| mesh_core.Items := [allowAll] |} in
  let c := NetworkRBACConfigurer permissions in
  let filter :=
    {| envoy_listener.Name := "envoy.filters.network.rbac";
       envoy_listener.ConfigType :=
         Some (envoy_listener.Filter_TypedConfig
           {| ptypes.TypeUrl :=
                "type.googleapis.com/envoy.config.filter.network.rbac.v2.RBAC";
              ptypes.Value := list_byte_of_string "inbound_127_0_0_1_21011." |}) |} in
  createRbacFilter util_xds.SanitizeMetric sample_MarshalAny (v2.Name inbound)
    permissions = inr filter
  ∧ ∃ l'',
      Configure util_xds.SanitizeMetric sample_MarshalAny c
        (Configure util_xds.SanitizeMetric sample_MarshalAny c inbound).2
      = (None, l'')
      ∧ ∀ (i : nat) chain,
          v2.FilterChains inbound !! i = Some chain →
          ∃ chain'',
            v2.FilterChains l'' !! i = Some chain''
            ∧ envoy_listener.Filters chain''
              = filter :: filter :: envoy_listener.Filters chain.
Proof.
  split.
  - apply createRbacFilter_inbound.
  - apply (Configure_twice_stacks_two_filters util_xds.SanitizeMetric
             sample_MarshalAny {| mesh_core.Items := [allowAll] |} inbound).
    apply createRbacFilter_inbound.
Defined.

(** X4 on the permissions [allow-all] and [allow-web], in both orders. *)
Lemma createRbacRule_order_of_two_permissions :
  NoDup (map (λ p, mesh_core.GetName (mesh_core.Meta p)) [allowAll; allowWeb])
  ∧ [allowAll; allowWeb] ≡ₚ [allowWeb; allowAll]
  ∧ createRbacRule util_xds.SanitizeMetric "inbound:127.0.0.1:21011"
      {| mesh_core.Items := [allowAll; allowWeb] |}
    = createRbacRule util_xds.SanitizeMetric "inbound:127.0.0.1:21011"
        {| mesh_core.Items := [allowWeb; allowAll] |}.
Proof.
  assert (Hnodup : NoDup (map (λ p, mesh_core.GetName (mesh_core.Meta p))
                            [allowAll; allowWeb])).
  { apply NoDup_cons. split; [|apply NoDup_singleton].
    rewrite list_elem_of_singleton. discriminate. }
  assert (Hperm : [allowAll; allowWeb] ≡ₚ [allowWeb; allowAll])
    by apply perm_swap.
  split; [exact Hnodup|]. split; [exact Hperm|].
  exact (createRbacRule_order_of_permissions util_xds.SanitizeMetric
           "inbound:127.0.0.1:21011" _ _ Hnodup Hperm).
Defined.

(** X6 on the meshes [a/b] and [a]. *)
Lemma createPrincipal_slash_collision_a_b_c :
  "c" ≠ "*"
  ∧ mesh_core.GetMesh (mesh_core.Meta (permissionOfMesh "a/b")) = "a" +:+ "/" +:+ "b"
  ∧ map_index (v1alpha1.Match (sourceOfService "c")) "service" = "c"
  ∧ mesh_core.GetMesh (mesh_core.Meta (permissionOfMesh "a")) = "a"
  ∧ map_index (v1alpha1.Match (sourceOfService "b/c")) "service" = "b" +:+ "/" +:+ "c"
  ∧ createPrincipal (permissionOfMesh "a/b") (sourceOfService "c")
    = createPrincipal (permissionOfMesh "a") (sourceOfService "b/c").
Proof.
  assert (Hc : "c" ≠ "*") by discriminate.
  split; [exact Hc|]. repeat (split; [reflexivity|]).
  exact (createPrincipal_slash_collision (permissionOfMesh "a/b")
           (permissionOfMesh "a") (sourceOfService "c") (sourceOfService "b/c")
           "a" "b" "c" Hc eq_refl eq_refl eq_refl eq_refl).
Defined.

(** X10 on a [PUT] for [r1] whose body names [r2]. *)
Lemma createOrUpdateResource_mismatch_on_r2 :
  let resourceRes :=
    (ReadEntity putR1NamedR2
       (Build_ResourceReqResp "" "" "" (GetSpec (ResourceFactory trafficRouteWs)))).2 in
  let w' := exec (createOrUpdateResource trafficRouteWs putR1NamedR2) emptyWorld in
  ¬ (PathParameter putR1NamedR2 "name" = Name_ resourceRes
     ∧ GetType (ResourceFactory trafficRouteWs) = Type_ resourceRes
     ∧ PathParameter putR1NamedR2 "mesh" = Mesh_ resourceRes)
  ∧ calls w' = calls emptyWorld
  ∧ backend w' = backend emptyWorld
  ∧ ∃ msg, last (response w') = Some (WriteErrorString 400 msg).
Proof.
  assert (Hmismatch :
    ¬ (PathParameter putR1NamedR2 "name"
       = Name_ (ReadEntity putR1NamedR2
                  (Build_ResourceReqResp "" "" ""
                     (GetSpec (ResourceFactory trafficRouteWs)))).2
       ∧ GetType (ResourceFactory trafficRouteWs)
         = Type_ (ReadEntity putR1NamedR2
                    (Build_ResourceReqResp "" "" ""
                       (GetSpec (ResourceFactory trafficRouteWs)))).2
       ∧ PathParameter putR1NamedR2 "mesh"
         = Mesh_ (ReadEntity putR1NamedR2
                    (Build_ResourceReqResp "" "" ""
                       (GetSpec (ResourceFactory trafficRouteWs)))).2)).
  { intros [Hname _]. vm_compute in Hname. discriminate Hname. }
  split; [exact Hmismatch|].
  exact (createOrUpdateResource_mismatch trafficRouteWs putR1NamedR2 emptyWorld
           Hmismatch).
Defined.

(** X11 on the [PUT] that creates [r1]. *)
Lemma createOrUpdateResource_creates_r1 :
  let init :=
    Build_ResourceReqResp "" "" "" (GetSpec (ResourceFactory trafficRouteWs)) in
  let resourceRes :=
    Build_ResourceReqResp "TrafficRoute" "r1" "B" (TrafficRoute "/api") in
  let w' := exec (createOrUpdateResource trafficRouteWs putR1InMeshB) emptyWorld in
  let created := (SetSpec (ResourceFactory trafficRouteWs) (TrafficRoute "/api")).2 in
  ReadEntity putR1InMeshB init = (None, resourceRes)
  ∧ validateResourceRequest trafficRouteWs putR1InMeshB resourceRes = None
  ∧ calls w'
    = [ CallGet (ResourceFactory trafficRouteWs) (GetByName "default" "r1");
        CallCreate created (CreateByName "default" "r1") ]
  ∧ backend w'
    = [ {| GetType := "TrafficRoute";
           GetMeta := {| GetName := "r1"; GetNamespace := "default";
                         GetVersion := 1%nat |};
           GetSpec := TrafficRoute "/api" |} ]
  ∧ response w' = [WriteHeader 201].
Proof.
  split; [reflexivity|]. split; [reflexivity|].
  exact (createOrUpdateResource_after_valid_read trafficRouteWs putR1InMeshB
           emptyWorld
           (Build_ResourceReqResp "TrafficRoute" "r1" "B" (TrafficRoute "/api"))
           eq_refl eq_refl).
Defined.

(** X12 on a [PUT] for [r1] whose body is not JSON. *)
Lemma createOrUpdateResource_read_error_on_r1 :
  let init :=
    Build_ResourceReqResp "" "" "" (GetSpec (ResourceFactory trafficRouteWs)) in
  let w' := exec (createOrUpdateResource trafficRouteWs putR1Garbage) emptyWorld in
  ReadEntity putR1Garbage init
  = (Some "invalid character looking for beginning of value", init)
  ∧ PathParameter putR1Garbage "name" ≠ ""
  ∧ calls w' = calls emptyWorld
  ∧ backend w' = backend emptyWorld
  ∧ response w'
    = response emptyWorld
      ++ [ WriteErrorString 400 "Could not process the resource";
           WriteErrorString 400 "Name from the URL has to be the same as in body" ].
Proof.
  assert (Hname : PathParameter putR1Garbage "name" ≠ "").
  { intros Hname. vm_compute in Hname. discriminate Hname. }
  split; [reflexivity|]. split; [exact Hname|].
  exact (createOrUpdateResource_read_error trafficRouteWs putR1Garbage emptyWorld
           "invalid character looking for beginning of value" _ eq_refl Hname).
Defined.

(** X13 on the read-only service of the traffic routes. *)
Lemma NewWs_read_only_traffic_routes :
  let w' := exec (routeFunction readOnlyWs (To getTrafficRoute) r1InMeshA)
              worldWithR1 in
  readOnly readOnlyWs = true
  ∧ In getTrafficRoute (Routes (NewWs readOnlyWs))
  ∧ Method getTrafficRoute = GET
  ∧ backend w' = backend worldWithR1
  ∧ ∃ c, calls w' = calls worldWithR1 ++ [c] ∧ isRead c = true.
Proof.
  assert (Hroute : In getTrafficRoute (Routes (NewWs readOnlyWs)))
    by (left; reflexivity).
  split; [reflexivity|]. split; [exact Hroute|].
  exact (NewWs_read_only readOnlyWs getTrafficRoute r1InMeshA worldWithR1
           eq_refl Hroute).
Defined.

(** X8 on a [DELETE] of [r1] through the mesh [A] and through the mesh
    [B]. *)
Lemma mesh_does_not_reach_the_store_on_r1 :
  let w1 := exec (routeFunction writableWs To_deleteResource r1InMeshA) worldWithR1 in
  let w2 := exec (routeFunction writableWs To_deleteResource r1InMeshB) worldWithR1 in
  To_deleteResource ≠ To_createOrUpdateResource
  ∧ PathParameter r1InMeshA "name" = PathParameter r1InMeshB "name"
  ∧ calls w1 = calls w2
  ∧ backend w1 = backend w2
  ∧ (To_deleteResource = To_deleteResource → response w1 = response w2).
Proof.
  assert (Hto : To_deleteResource ≠ To_createOrUpdateResource) by discriminate.
  split; [exact Hto|]. split; [reflexivity|].
  exact (mesh_does_not_reach_the_store writableWs To_deleteResource r1InMeshA
           r1InMeshB worldWithR1 Hto eq_refl).
Defined.

(** X14 on a body that names the resource twice: the second name is the
    one that is read. *)
Lemma UnmarshalJSON_result_on_two_names :
  let r := Build_ResourceReqResp "" "" "" (TrafficRoute "") in
  let body :=
    json.JObject [ ("name", json.JString "r1"); ("name", json.JString "r2");
                   ("path", json.JString "/api") ] in
  jsonpb.Unmarshal body (Spec_ r) = (None, TrafficRoute "/api")
  ∧ UnmarshalJSON r body
    = (None, Build_ResourceReqResp "" "r2" "" (TrafficRoute "/api")).
Proof.
  split; [reflexivity|].
  exact (UnmarshalJSON_result (Build_ResourceReqResp "" "" "" (TrafficRoute ""))
           (json.JObject [ ("name", json.JString "r1"); ("name", json.JString "r2");
                           ("path", json.JString "/api") ])
           (TrafficRoute "/api") eq_refl).
Defined.

(** X15 on the envelope of the traffic route [r1]. *)
Lemma MarshalJSON_members_of_r1 :
  let data := list_to_map membersOfR1 : gmap string json.value in
  MarshalJSON sample_convert envelopeR1 = inr data
  ∧ data !! "type" = Some (json.JString "TrafficRoute")
  ∧ data !! "name" = Some (json.JString "r1")
  ∧ data !! "mesh" = Some (json.JString "default")
  ∧ ∀ key, key ≠ "type" → key ≠ "name" → key ≠ "mesh" →
      match jsonpb.Marshal (Spec_ envelopeR1) with
      | inr (json.JObject fields) =>
          match json.lastField key fields with
          | Some v =>
              ∃ v', json.viaInterface sample_convert v = inr v'
                    ∧ data !! key = Some v'
          | None => data !! key = None
          end
      | _ => data !! key = None
      end.
Proof.
  assert (Hdata : MarshalJSON sample_convert envelopeR1
                  = inr (list_to_map membersOfR1)).
  { vm_compute. reflexivity. }
  split; [exact Hdata|].
  exact (MarshalJSON_members sample_convert envelopeR1 _ Hdata).
Defined.

(** X16 on the envelope of the traffic route [r1]. *)
Lemma MarshalJSON_UnmarshalJSON_r1 :
  let r0 := Build_ResourceReqResp "" "" "" (TrafficRoute "") in
  let specFields := [ ("path", json.JString "/api") ] in
  jsonpb.Marshal (Spec_ envelopeR1) = inr (json.JObject specFields)
  ∧ Forall (λ kv, json.isStringOrNull kv.2 = true) specFields
  ∧ MarshalJSON sample_convert envelopeR1 = inr (list_to_map membersOfR1)
  ∧ NoDup membersOfR1.*1
  ∧ jsonpb.Unmarshal (json.JObject membersOfR1) (Spec_ r0)
    = (None, TrafficRoute "/api")
  ∧ json.ValidString (Type_ envelopeR1) = true
  ∧ json.ValidString (Name_ envelopeR1) = true
  ∧ json.ValidString (Mesh_ envelopeR1) = true
  ∧ UnmarshalJSON r0 (json.JObject membersOfR1) = (None, envelopeR1).
Proof.
  assert (Hall : Forall (λ kv : string * json.value, json.isStringOrNull kv.2 = true)
                   [ ("path", json.JString "/api") ])
    by (repeat constructor).
  assert (Hdata : MarshalJSON sample_convert envelopeR1
                  = inr (list_to_map membersOfR1))
    by (vm_compute; reflexivity).
  assert (Hnodup : NoDup membersOfR1.*1).
  { apply (proj2 (NoDup_ListNoDup _)). repeat constructor;
      cbn; intuition discriminate. }
  split; [reflexivity|]. split; [exact Hall|]. split; [exact Hdata|].
  split; [exact Hnodup|]. split; [reflexivity|].
  split; [reflexivity|]. split; [reflexivity|]. split; [reflexivity|].
  exact (proj2 (MarshalJSON_UnmarshalJSON sample_convert envelopeR1
                  (Build_ResourceReqResp "" "" "" (TrafficRoute ""))
                  [ ("path", json.JString "/api") ] membersOfR1 _
                  (TrafficRoute "/api")
                  eq_refl Hall Hdata Hnodup eq_refl eq_refl)
           eq_refl eq_refl eq_refl).
Defined.

(** The member [mesh] that [MarshalJSON] writes for the mesh of
    [GET /meshes/%FF/traffic-routes/r1], whose one byte begins no valid
    encoding: U+FFFD. *)
Example MarshalJSON_of_invalid_mesh :
  let mesh := String "255" EmptyString in
  json.ValidString mesh = false
  ∧ ∃ data,
      MarshalJSON sample_convert
        (Build_ResourceReqResp "TrafficRoute" "r1" mesh (TrafficRoute "/api"))
      = inr data
      ∧ data !! "mesh" = Some (json.JString json.replacementCharacter).
Proof.
  split; [reflexivity|].
  eexists. split; [vm_compute; reflexivity|]. reflexivity.
Qed.

(** X17 on the envelope of a proxy template, whose [imports] are a list. *)
Lemma MarshalJSON_refused_for_p1 :
  let r0 := Build_ResourceReqResp "" "" "" (ProxyTemplate []) in
  let specFields := [ ("imports", json.JArray [json.JString "base"]) ] in
  (∀ v v', sample_convert v = inr v' → json.kind v' = json.kind v)
  ∧ jsonpb.Marshal (Spec_ envelopeP1) = inr (json.JObject specFields)
  ∧ json.lastField "imports" specFields = Some (json.JArray [json.JString "base"])
  ∧ MarshalJSON sample_convert envelopeP1 = inr (list_to_map membersOfP1)
  ∧ NoDup membersOfP1.*1
  ∧ ∃ err, (UnmarshalJSON r0 (json.JObject membersOfP1)).1 = Some err.
Proof.
  assert (Hkind : ∀ v v', sample_convert v = inr v' → json.kind v' = json.kind v).
  { intros v v' Heq. injection Heq as <-. reflexivity. }
  assert (Hdata : MarshalJSON sample_convert envelopeP1
                  = inr (list_to_map membersOfP1))
    by (vm_compute; reflexivity).
  assert (Hnodup : NoDup membersOfP1.*1).
  { apply (proj2 (NoDup_ListNoDup _)). repeat constructor;
      cbn; intuition discriminate. }
  assert (Htype : "imports" ≠ "type") by discriminate.
  assert (Hname : "imports" ≠ "name") by discriminate.
  assert (Hmesh : "imports" ≠ "mesh") by discriminate.
  split; [exact Hkind|]. split; [reflexivity|]. split; [reflexivity|].
  split; [exact Hdata|]. split; [exact Hnodup|].
  exact (MarshalJSON_refused_by_UnmarshalJSON sample_convert envelopeP1
           (Build_ResourceReqResp "" "" "" (ProxyTemplate []))
           [ ("imports", json.JArray [json.JString "base"]) ] membersOfP1 _
           "imports" (json.JArray [json.JString "base"])
           Hkind eq_refl eq_refl eq_refl Htype Hname Hmesh Hdata Hnodup eq_refl).
Defined.

(** X18 on three requests, the control plane having no instance
    identifier at the first, [cp-1] at the second and [cp-2] at the third:
    the third answer still says [cp-1], and asks nobody. *)
Lemma serveAll_first_known_on_three_requests :
  let served :=
    index_ws.serveAll "Kuma" "1.0.0" string (λ env, env) (λ _, "cluster")
      [""; "cp-1"; "cp-2"] indexOfCpHost in
  let resp :=
    {| index_ws.Hostname := "cp-host"; index_ws.Tagline := "Kuma";
       index_ws.Version := "1.0.0"; index_ws.InstanceId := "cp-1";
       index_ws.ClusterId := "cluster" |} in
  served !! 2%nat = Some (resp, [])
  ∧ index_ws.Hostname resp = index_ws.hostname indexOfCpHost
  ∧ index_ws.InstanceId resp
    = index_ws.firstKnown
        (index_ws.instanceId indexOfCpHost
           :: map (λ env, env) (take 3 [""; "cp-1"; "cp-2"]))
  ∧ index_ws.ClusterId resp
    = index_ws.firstKnown
        (index_ws.clusterId indexOfCpHost
           :: map (λ _ : string, "cluster") (take 3 [""; "cp-1"; "cp-2"]))
  ∧ (index_ws.CallGetInstanceId ∈ []
     ↔ index_ws.firstKnown
         (index_ws.instanceId indexOfCpHost
            :: map (λ env, env) (take 2 [""; "cp-1"; "cp-2"])) = "")
  ∧ (index_ws.CallGetClusterId ∈ []
     ↔ index_ws.firstKnown
         (index_ws.clusterId indexOfCpHost
            :: map (λ _ : string, "cluster") (take 2 [""; "cp-1"; "cp-2"])) = "").
Proof.
  split; [reflexivity|].
  exact (serveAll_first_known "Kuma" "1.0.0" string (λ env, env) (λ _, "cluster")
           [""; "cp-1"; "cp-2"] indexOfCpHost 2 _ [] eq_refl).
Defined.

(** C4, as amended, on the permissions [allow-all] and [allow-web] with the
    two visits of their policy map, which the sample encoding tells apart. *)
Lemma createRbacFilter_up_to_map_order_of_two_policies :
  let listenerName := "inbound:127.0.0.1:21011" in
  let permissions := {| mesh_core.Items := [allowAll; allowWeb] |} in
  let rule := createRbacRule util_xds.SanitizeMetric listenerName permissions in
  let policies := proto.policiesOf rule in
  proto.visits allThenWeb policies
  ∧ proto.visits webThenAll policies
  ∧ (sample_encode (proto.wireOf allThenWeb rule)
     = sample_encode (proto.wireOf webThenAll rule) →
     proto.wireOf allThenWeb rule = proto.wireOf webThenAll rule)
  ∧ (∃ entries1 entries2,
       proto.WireRules (proto.wireOf allThenWeb rule)
       = Some (rbac_config.RBAC_ALLOW, entries1)
       ∧ proto.WireRules (proto.wireOf webThenAll rule)
         = Some (rbac_config.RBAC_ALLOW, entries2)
       ∧ entries1 ≡ₚ entries2
       ∧ (∀ name policy,
            (name, policy) ∈ entries1 ↔ policies !! name = Some policy))
  ∧ proto.WireStatPrefix (proto.wireOf allThenWeb rule)
    = proto.WireStatPrefix (proto.wireOf webThenAll rule)
  ∧ ((size policies ≤ 1)%nat →
     createRbacFilter util_xds.SanitizeMetric
       (proto.MarshalAnyIn sample_encode allThenWeb) listenerName permissions
     = createRbacFilter util_xds.SanitizeMetric
         (proto.MarshalAnyIn sample_encode webThenAll) listenerName permissions
     ∧ ∀ l : v2.Listener,
         Configure util_xds.SanitizeMetric
           (proto.MarshalAnyIn sample_encode allThenWeb)
           (NetworkRBACConfigurer permissions) l
         = Configure util_xds.SanitizeMetric
             (proto.MarshalAnyIn sample_encode webThenAll)
             (NetworkRBACConfigurer permissions) l)
  ∧ ((sample_encode (proto.wireOf allThenWeb rule)
      = sample_encode (proto.wireOf webThenAll rule) →
      proto.wireOf allThenWeb rule = proto.wireOf webThenAll rule) →
     createRbacFilter util_xds.SanitizeMetric
       (proto.MarshalAnyIn sample_encode allThenWeb) listenerName permissions
     = createRbacFilter util_xds.SanitizeMetric
         (proto.MarshalAnyIn sample_encode webThenAll) listenerName permissions
     ↔ allThenWeb = webThenAll).
Proof.
  assert (Hall : proto.visits allThenWeb
            (proto.policiesOf
               (createRbacRule util_xds.SanitizeMetric "inbound:127.0.0.1:21011"
                  {| mesh_core.Items := [allowAll; allowWeb] |}))).
  { split; [apply (bool_decide_unpack _); vm_compute; exact I|].
    apply (bool_decide_unpack _). vm_compute. exact I. }
  assert (Hweb : proto.visits webThenAll
            (proto.policiesOf
               (createRbacRule util_xds.SanitizeMetric "inbound:127.0.0.1:21011"
                  {| mesh_core.Items := [allowAll; allowWeb] |}))).
  { split; [apply (bool_decide_unpack _); vm_compute; exact I|].
    apply (bool_decide_unpack _). vm_compute. exact I. }
  split; [exact Hall|]. split; [exact Hweb|].
  split; [intros Hbytes; vm_compute in Hbytes; discriminate Hbytes|].
  exact (createRbacFilter_up_to_map_order util_xds.SanitizeMetric sample_encode
           "inbound:127.0.0.1:21011"
           {| mesh_core.Items := [allowAll; allowWeb] |}
           allThenWeb webThenAll Hall Hweb).
Defined.

(** C4, the claim as stated fails.  For the permissions [allow-all] and
    [allow-web], the marshaller may range over the policy map in either
    order.  With the sample encoding the two runs return filters whose
    bytes differ, and so do the listeners that [Configure] returns; and no
    encoding that tells two messages apart gives the two runs the same
    filter. *)
Lemma createRbacFilter_depends_on_map_order :
  let listenerName := v2.Name inbound in
  let permissions := {| mesh_core.Items := [allowAll; allowWeb] |} in
  let policies :=
    proto.policiesOf
      (createRbacRule util_xds.SanitizeMetric listenerName permissions) in
  let filterIn encode order :=
    createRbacFilter util_xds.SanitizeMetric (proto.MarshalAnyIn encode order)
      listenerName permissions in
  let bytesOf filter :=
    match filter with
    | inr {| envoy_listener.ConfigType :=
               Some (envoy_listener.Filter_TypedConfig any) |} =>
        string_of_list_byte (ptypes.Value any)
    | _ => ""
    end in
  proto.visits allThenWeb policies
  ∧ proto.visits webThenAll policies
  ∧ bytesOf (filterIn sample_encode allThenWeb)
    = "inbound_127_0_0_1_21011.allow-all;allow-web"
  ∧ bytesOf (filterIn sample_encode webThenAll)
    = "inbound_127_0_0_1_21011.allow-web;allow-all"
  ∧ filterIn sample_encode allThenWeb ≠ filterIn sample_encode webThenAll
  ∧ Configure util_xds.SanitizeMetric
      (proto.MarshalAnyIn sample_encode allThenWeb)
      (NetworkRBACConfigurer permissions) inbound
    ≠ Configure util_xds.SanitizeMetric
        (proto.MarshalAnyIn sample_encode webThenAll)
        (NetworkRBACConfigurer permissions) inbound
  ∧ ¬ ∃ encode : proto.RBACWire → error + ptypes.Any,
        (∀ w1 w2, encode w1 = encode w2 → w1 = w2)
        ∧ filterIn encode allThenWeb = filterIn encode webThenAll.
Proof.
  cbv zeta.
  split; [split; apply (bool_decide_unpack _); vm_compute; exact I|].
  split; [split; apply (bool_decide_unpack _); vm_compute; exact I|].
  split; [vm_compute; reflexivity|].
  split; [vm_compute; reflexivity|].
  split; [vm_compute; discriminate|].
  split; [vm_compute; discriminate|].
  intros (encode & Hinjective & Hsame).
  unfold createRbacFilter, proto.MarshalAnyIn in Hsame.
  assert (Hwire :
    proto.wireOf allThenWeb
      (createRbacRule util_xds.SanitizeMetric (v2.Name inbound)
         {| mesh_core.Items := [allowAll; allowWeb] |})
    = proto.wireOf webThenAll
        (createRbacRule util_xds.SanitizeMetric (v2.Name inbound)
           {| mesh_core.Items := [allowAll; allowWeb] |})).
  { apply Hinjective.
    destruct (encode (proto.wireOf allThenWeb _)) as [err1|any1];
      destruct (encode (proto.wireOf webThenAll _)) as [err2|any2];
      by simplify_eq. }
  vm_compute in Hwire. discriminate Hwire.
Qed.

End MoreSamples.
